(** * Detecting-Prostate-Cancer: the dataset builder [create_dataset.py]

    A shallow embedding of the two functions that carry the logic of the
    script, [get_cancer_df] (projection, labelling and join of the two
    tables) and [create_image_datasets] (the per-row walk that writes the
    selected slices), followed by the properties the specification states
    about them, and of [main], which runs one after the other on the
    settings of the environment.

    Tables are lists of rows in table order; a blank cell of a text
    column is [None], and a cell of the score column is a value of an
    int64 column, a value of a float64 column, or blank.  The file
    system, the DICOM reader and the image writer are an explicit
    environment ([world]) and the effects of the materializer are threaded
    through a small state-and-exception monad. *)

From Stdlib Require Import ZArith QArith List String Ascii Bool Lia.
From Stdlib Require Import Decimal DecimalFacts DecimalNat DecimalString.
From stdpp Require Import base decidable list strings gmap.

Import ListNotations.

(** ** Tables *)

Module Tables.

(** A cell of the score column as the DataFrame holds it.  pandas gives
    the column the dtype int64 when every cell is a whole number, and
    float64 when a cell is blank or has a fraction; a blank cell is NaN.
    [Float64 q] is the finite float64 of value [q]. *)
Inductive score_cell :=
| Int64 (z : Z)
| Float64 (q : Q)
| NaN.

(** The number in a cell, when there is one. *)
Definition score_value (c : score_cell) : option Q :=
  match c with
  | Int64 z => Some (inject_Z z)
  | Float64 q => Some q
  | NaN => None
  end.

(** Rounding of [a >= 0] to a multiple of [g]: the nearest one, and the
    even one of two that are equally near. *)
Definition round_to_multiple (g a : Z) : Z :=
  let q := (a / g)%Z in
  let r := (a mod g)%Z in
  let up := ((g <? 2 * r) || ((g =? 2 * r) && Z.odd q))%Z in
  (g * (if up then q + 1 else q))%Z.

(** The float64 nearest to a whole number [a >= 0]: the whole numbers up
    to 2^53 are float64 values, and from 2^k on, for k >= 53, the float64
    values are the multiples of 2^(k-52). *)
Definition nearest_float64 (a : Z) : Z :=
  let s := (Z.log2 a - 52)%Z in
  if (s <=? 0)%Z then a else round_to_multiple (2 ^ s) a.

(** The value that a Python int takes when numpy compares it with a
    float64 column: the nearest float64, ties to even.  (Below 2^1024 in
    magnitude; every threshold of interest is.) *)
Definition float64_of_int (z : Z) : Z :=
  (Z.sgn z * nearest_float64 (Z.abs z))%Z.

(** A row of [datasets/metadata.csv] as read by [pd.read_csv]: the five
    named columns and whatever else the file carries.  [File Location] is
    a text in every row; a blank cell there, on which line 78 raises
    [TypeError], is not represented. *)
Record RawMetadataRow := {
  raw_subject_id : string;
  raw_modality : string;
  raw_sop_class_name : string;
  raw_file_location : string;
  raw_series_uid : option string;
  raw_metadata_rest : list string
}.

(** [metadata_df[meta_data_columns_to_keep]] *)
Record StudyMetadataRow := {
  subject_id : string;
  modality : string;
  sop_class_name : string;
  file_location : string;
  metadata_series_uid : option string
}.

(** A row of sheet [Sheet1] of the target spreadsheet. *)
Record RawTargetRow := {
  raw_ucla_score : score_cell;
  raw_patient_id : string;
  raw_seriesInstanceUID_US : option string;
  raw_target_rest : list string
}.

(** [target_data_df[target_columns_to_keep]] after the rename of
    [seriesInstanceUID_US] to [Series UID]. *)
Record ScoreRow := {
  ucla_score : score_cell;
  patient_id : string;
  score_series_uid : option string
}.

(** The score table once the [cancer] column has been added. *)
Record LabeledScoreRow := {
  scored : ScoreRow;
  score_cancer : bool
}.

(** A row of [cancer_df]: the columns of both sides, [Series UID] once. *)
Record LabeledSeriesRow := {
  ls_subject_id : string;
  ls_modality : string;
  ls_sop_class_name : string;
  ls_file_location : string;
  ls_series_uid : option string;
  ls_ucla_score : score_cell;
  ls_patient_id : string;
  cancer : bool
}.

Definition keep_metadata_columns (r : RawMetadataRow) : StudyMetadataRow :=
  {| subject_id := raw_subject_id r;
     modality := raw_modality r;
     sop_class_name := raw_sop_class_name r;
     file_location := raw_file_location r;
     metadata_series_uid := raw_series_uid r |}.

Definition is_US (r : StudyMetadataRow) : bool :=
  String.eqb (modality r) "US".

(** Lines 25-34: projection to the kept columns, then the boolean mask
    [metadata_df["Modality"] == "US"]. *)
Definition project_metadata (metadata_csv : list RawMetadataRow)
  : list StudyMetadataRow :=
  List.filter is_US (map keep_metadata_columns metadata_csv).

(** Lines 37-46: projection of the spreadsheet and the column rename. *)
Definition keep_target_columns (r : RawTargetRow) : ScoreRow :=
  {| ucla_score := raw_ucla_score r;
     patient_id := raw_patient_id r;
     score_series_uid := raw_seriesInstanceUID_US r |}.

Definition project_target (target_xlsx : list RawTargetRow) : list ScoreRow :=
  map keep_target_columns target_xlsx.

(** The elementwise [>=] of pandas between the score column and the
    threshold, a Python int: exact on an int64 column; on a float64
    column the threshold is first made a float64; NaN compares false. *)
Definition score_ge (score : score_cell) (threshold_for_cancer : Z) : bool :=
  match score with
  | Int64 z => (threshold_for_cancer <=? z)%Z
  | Float64 q => Qle_bool (inject_Z (float64_of_int threshold_for_cancer)) q
  | NaN => false
  end.

(** Lines 49-51: [target_data_df["cancer"] = score >= threshold]. *)
Definition add_cancer_column (threshold_for_cancer : Z) (r : ScoreRow)
  : LabeledScoreRow :=
  {| scored := r;
     score_cancer := score_ge (ucla_score r) threshold_for_cancer |}.

Definition label_target (threshold_for_cancer : Z) (t : list ScoreRow)
  : list LabeledScoreRow :=
  map (add_cancer_column threshold_for_cancer) t.

Definition same_uid (a b : option string) : bool := bool_decide (a = b).

Definition merged_row (l : StudyMetadataRow) (r : LabeledScoreRow)
  : LabeledSeriesRow :=
  {| ls_subject_id := subject_id l;
     ls_modality := modality l;
     ls_sop_class_name := sop_class_name l;
     ls_file_location := file_location l;
     ls_series_uid := metadata_series_uid l;
     ls_ucla_score := ucla_score (scored r);
     ls_patient_id := patient_id (scored r);
     cancer := score_cancer r |}.

(** Line 55: [pd.merge(left, right, on="Series UID")], the default
    [how="inner"]: every pair of a left and a right row with equal keys,
    in the order of the left keys.  pandas also pairs blank keys with
    blank keys, which equality on [option string] reproduces.  This is
    the table that [pd.merge] returns; on two key columns of different
    dtype, one blank in every row and the other with text, it raises
    [ValueError] and returns none. *)
Definition merge_on_series_uid (left : list StudyMetadataRow)
    (right : list LabeledScoreRow) : list LabeledSeriesRow :=
  flat_map
    (fun l =>
       map (merged_row l)
         (List.filter
            (fun r => same_uid (score_series_uid (scored r))
                               (metadata_series_uid l))
            right))
    left.

(** Lines 25-57, on the two tables as they were read. *)
Definition get_cancer_df (metadata_csv : list RawMetadataRow)
    (target_xlsx : list RawTargetRow) (threshold_for_cancer : Z)
  : list LabeledSeriesRow :=
  let metadata_df := project_metadata metadata_csv in
  let target_data_df := project_target target_xlsx in
  let target_data_df := label_target threshold_for_cancer target_data_df in
  merge_on_series_uid metadata_df target_data_df.

(** Number of rows of a table that carry a given series identifier. *)
Definition count_uid {A : Type} (key : A -> option string)
    (uid : option string) (t : list A) : nat :=
  length (List.filter (fun r => same_uid (key r) uid) t).

End Tables.

(** ** Paths and formatted names *)

Module Path.

Definition sep : ascii := "/"%char.

Definition startswith_sep (p : string) : bool :=
  match p with
  | String c _ => Ascii.eqb c sep
  | EmptyString => false
  end.

Fixpoint endswith_sep (p : string) : bool :=
  match p with
  | EmptyString => false
  | String c rest =>
      match rest with
      | EmptyString => Ascii.eqb c sep
      | String _ _ => endswith_sep rest
      end
  end.

(** [os.path.join(a, b)] of [posixpath]: an absolute [b] replaces [a];
    a separator is inserted unless [a] is empty or already ends in one. *)
Definition join (a b : string) : string :=
  if startswith_sep b then b
  else if String.eqb a "" || endswith_sep a then a +:+ b
  else a +:+ "/" +:+ b.

(** What [join a b] puts in front of a relative [b]. *)
Definition join_prefix (a : string) : string :=
  if String.eqb a "" || endswith_sep a then a else a +:+ "/".

(** The slice [s[2:]]. *)
Definition drop2 (s : string) : string :=
  match s with
  | String _ (String _ rest) => rest
  | _ => ""
  end.

(** [str(n)] for a non-negative integer. *)
Definition str (n : nat) : string := NilZero.string_of_uint (Nat.to_uint n).

(** The components of [p] that [os.makedirs] creates on the way to [p]:
    every non-empty proper prefix that stops in front of a run of
    separators. *)
Fixpoint parents_from (seen rest : string) : list string :=
  match rest with
  | EmptyString => []
  | String c rest' =>
      (if Ascii.eqb c sep && negb (String.eqb seen "")
          && negb (endswith_sep seen)
       then [seen] else [])
      ++ parents_from (seen +:+ String c "") rest'
  end.

Definition parents (p : string) : list string := parents_from "" p.

End Path.

(** ** The materializer *)

Module Materializer.

Import Tables.

Inductive exn :=
| FileNotFoundError
| PermissionError
| NotADirectoryError
| FileExistsError
| IndexError
| InvalidDicomError
| PixelDataError
| TypeError.

(** What [dicom.dcmread] returns, as far as the script looks at it:
    [ds.pixel_array.astype(float)] either raises or is an array, of which
    only [shape[0]], the number of slices, decides what is written. *)
Record dataset := { pixel_array : exn + nat }.

(** The environment of one run.  [listdir] and [dcmread] take the number
    of the iteration that calls them, so that the manifest folder may
    change between rows.  [imwrite] reports failure through its return
    value, the only failure of a write that the script handles.
    [mkdir_error q] is the error, if any, with which the system refuses
    to create the directory [q] (a component of [q] that is a file, a
    missing permission, ...). *)
Record world := {
  getcwd : string;
  listdir : nat -> string -> exn + list string;
  dcmread : nat -> string -> exn + dataset;
  imwrite : string -> bool;
  mkdir_error : string -> option exn
}.

(** The calls with an effect outside the process, in program order.
    [Imwrite p i s] is [cv2.imwrite(p, pixel_array[s])] in iteration [i];
    [Print msg] is [print(msg)], which ends the line itself. *)
Inductive event :=
| Makedirs (path : string)
| Print (msg : string)
| Imwrite (path : string) (row slice : nat).

(** A computation starts from the set of paths for which
    [os.path.exists] holds and ends with a value or a raised exception,
    that set as it is then, and the calls it made.  The set follows the
    directories that are made.  The image files that [cv2.imwrite] makes
    are not entered in it: they are calls of the trace, and no path that
    the script tests for existence names one of them. *)
Record outcome (A : Type) := Outcome {
  res : exn + A;
  dirs : gset string;
  out : list event
}.
Arguments Outcome {A} _ _ _.
Arguments res {A} _.
Arguments dirs {A} _.
Arguments out {A} _.

Definition M (A : Type) : Type := gset string -> outcome A.

Definition ret {A : Type} (a : A) : M A := fun d => Outcome (inr a) d [].

Definition raise {A : Type} (e : exn) : M A := fun d => Outcome (inl e) d [].

Definition bind {A B : Type} (m : M A) (k : A -> M B) : M B :=
  fun d =>
    let o := m d in
    match res o with
    | inl e => Outcome (inl e) (dirs o) (out o)
    | inr a => let o' := k a (dirs o) in
               Outcome (res o') (dirs o') (out o ++ out o')
    end.

Declare Scope py_scope.
Delimit Scope py_scope with py.
Notation "x <- m ;; k" := (bind m (fun x => k))
  (at level 100, m at next level, right associativity) : py_scope.
Notation "m ;; k" := (bind m (fun _ => k))
  (at level 100, right associativity) : py_scope.
Local Open Scope py_scope.

(** A library call of the environment: its value or its exception. *)
Definition call {A : Type} (r : exn + A) : M A := fun d => Outcome r d [].

Definition emit (e : event) : M unit := fun d => Outcome (inr tt) d [e].

Definition print (msg : string) : M unit := emit (Print msg).

(** [try: body / except Exception: handler] *)
Definition try_except {A : Type} (body : M A) (handler : M A) : M A :=
  fun d =>
    let o := body d in
    match res o with
    | inl _ => let o' := handler (dirs o) in
               Outcome (res o') (dirs o') (out o ++ out o')
    | inr _ => o
    end.

(** [for x in xs: body(x)] *)
Fixpoint for_each {A : Type} (xs : list A) (body : A -> M unit) : M unit :=
  match xs with
  | [] => ret tt
  | x :: xs' => body x ;; for_each xs' body
  end.

Definition path_exists (p : string) : M bool :=
  fun d => Outcome (inr (bool_decide (p ∈ d))) d [].

(** [os.mkdir(q)] *)
Definition mkdir (w : world) (q : string) : M unit :=
  fun d =>
    if bool_decide (q ∈ d) then Outcome (inl FileExistsError) d []
    else match mkdir_error w q with
         | Some e => Outcome (inl e) d []
         | None => Outcome (inr tt) (d ∪ {[q]}) []
         end.

(** [try: body / except FileExistsError: pass] *)
Definition pass_file_exists (body : M unit) : M unit :=
  fun d =>
    let o := body d in
    match res o with
    | inl FileExistsError => Outcome (inr tt) (dirs o) (out o)
    | _ => o
    end.

(** The recursion of [os.makedirs(name)], [exist_ok=False], on the
    ancestors of [name], the nearest first: a missing parent is made
    first, in the same way and with [FileExistsError] passed over; then
    [name] itself is made. *)
Fixpoint makedirs_from (w : world) (name : string) (ancestors : list string)
  : M unit :=
  (match ancestors with
   | [] => ret tt
   | head :: further =>
       e <- path_exists head ;;
       if negb e then pass_file_exists (makedirs_from w head further)
       else ret tt
   end) ;;
  mkdir w name.

(** [os.makedirs(p)] *)
Definition makedirs (w : world) (p : string) : M unit :=
  emit (Makedirs p) ;; makedirs_from w p (rev (Path.parents p)).

Definition cancer_image_path : string := "images/cancer".
Definition nonmalignant_image_path : string := "images/nonmalignant".

Definition newline : string := String (ascii_of_nat 10) "".

(** Lines 67-73. *)
Definition make_image_dirs (w : world) : M unit :=
  e <- path_exists cancer_image_path ;;
  (if negb e then makedirs w cancer_image_path else ret tt) ;;
  e <- path_exists nonmalignant_image_path ;;
  (if negb e then makedirs w nonmalignant_image_path else ret tt).

(** Lines 78 and 80: the directory of the series of a row. *)
Definition series_dir (path_to_manifest_folder : string)
    (row : LabeledSeriesRow) : string :=
  Path.join path_to_manifest_folder (Path.drop2 (ls_file_location row)).

Definition skip_message (original_image_path : string) : string :=
  "Unable to work with file: " +:+ original_image_path +:+ "; moving on...".

(** [os.listdir(p)[0]] *)
Definition first_entry (w : world) (i : nat) (p : string) : M string :=
  names <- call (listdir w i p) ;;
  match names with
  | name :: _ => ret name
  | [] => raise IndexError
  end.

(** Lines 76 and 88-95. *)
Definition new_image_location (w : world) (is_cancer : bool) : string :=
  let current_location := getcwd w in
  if is_cancer then Path.join current_location cancer_image_path
  else Path.join current_location nonmalignant_image_path.

Definition image_name (i slice_number : nat) : string :=
  "image_" +:+ Path.str i +:+ "_" +:+ Path.str slice_number +:+ ".jpg".

Definition wanted_slices : list nat := [130; 134].

(** Lines 103-114: the body of the loop over the slices. *)
Definition write_slice (w : world) (location : string) (i slice_number : nat)
  : M unit :=
  if negb (existsb (Nat.eqb slice_number) wanted_slices) then ret tt
  else
    let slice_image_path := Path.join location (image_name i slice_number) in
    emit (Imwrite slice_image_path i slice_number) ;;
    if imwrite w slice_image_path
    then print (location +:+ " created successfully" +:+ newline)
    else print ("Failed to create " +:+ location +:+ "..." +:+ newline).

(** Lines 101-114: the loop over the slices of one volume. *)
Definition write_slices (w : world) (location : string) (i shape0 : nat)
  : M unit :=
  for_each (seq 0 shape0) (write_slice w location i).

(** Lines 76-114: one iteration of the loop over the rows. *)
Definition process_row (w : world) (path_to_manifest_folder : string)
    (cancer_df : list LabeledSeriesRow) (i : nat) : M unit :=
  match cancer_df !! i with
  | None => raise IndexError
  | Some row =>
      let original_image_path := series_dir path_to_manifest_folder row in
      found <- try_except
                 (name <- first_entry w i original_image_path ;;
                  ret (Some name))
                 (print (skip_message original_image_path) ;; ret None) ;;
      match found with
      | None => ret tt
      | Some name_of_dcm_file =>
          let location := new_image_location w (cancer row) in
          let original_image_path :=
            Path.join original_image_path name_of_dcm_file in
          ds <- call (dcmread w i original_image_path) ;;
          shape0 <- call (pixel_array ds) ;;
          write_slices w location i shape0
      end
  end.

(** Lines 67-114. *)
Definition create_image_datasets (w : world)
    (cancer_df : list LabeledSeriesRow) (path_to_manifest_folder : string)
  : M unit :=
  make_image_dirs w ;;
  for_each (seq 0 (length cancer_df))
    (process_row w path_to_manifest_folder cancer_df).

(** The image writes among the calls of a run, and those of one row. *)
Definition is_write (e : event) : bool :=
  match e with Imwrite _ _ _ => true | _ => false end.

Definition writes (t : list event) : list event := List.filter is_write t.

Definition is_write_of (i : nat) (e : event) : bool :=
  match e with Imwrite _ row _ => Nat.eqb row i | _ => false end.

Definition writes_of (i : nat) (t : list event) : list event :=
  List.filter (is_write_of i) t.

Definition is_makedirs (e : event) : bool :=
  match e with Makedirs _ => true | _ => false end.

(** The calls that one pass of the slice loop makes. *)
Definition slice_calls (w : world) (location : string) (i slice_number : nat)
  : list event :=
  if existsb (Nat.eqb slice_number) wanted_slices then
    let slice_image_path := Path.join location (image_name i slice_number) in
    [Imwrite slice_image_path i slice_number;
     Print (if imwrite w slice_image_path
            then location +:+ " created successfully" +:+ newline
            else "Failed to create " +:+ location +:+ "..." +:+ newline)]
  else [].

(** A computation is confined to [P] when it leaves the set of existing
    paths as it found it and makes only calls that satisfy [P]. *)
Definition confined {A : Type} (P : event -> Prop) (m : M A) : Prop :=
  forall d, dirs (m d) = d /\ Forall P (out (m d)).

(** The write of one slice of row [i] below [location]. *)
Definition slice_write (location : string) (i slice_number : nat) : event :=
  Imwrite (Path.join location (image_name i slice_number)) i slice_number.

(** The listing of the series directory of a row gives no first entry:
    it raises, or the directory is empty. *)
Definition unlistable (w : world) (path_to_manifest_folder : string)
    (i : nat) (row : LabeledSeriesRow) : Prop :=
  (exists e, listdir w i (series_dir path_to_manifest_folder row) = inl e)
  \/ listdir w i (series_dir path_to_manifest_folder row) = inr [].

(** The image file of a row is listed, but reading or decoding it
    raises [e]. *)
Definition undecodable (w : world) (path_to_manifest_folder : string)
    (i : nat) (row : LabeledSeriesRow) (e : exn) : Prop :=
  exists name others,
    listdir w i (series_dir path_to_manifest_folder row)
    = inr (name :: others)
    /\ let file :=
         Path.join (series_dir path_to_manifest_folder row) name in
       (dcmread w i file = inl e
        \/ exists ds, dcmread w i file = inr ds /\ pixel_array ds = inl e).

(** What iteration [i] may do: print, and write a wanted slice of its own
    row under the directory of the row's label. *)
Definition row_call (w : world) (cancer_df : list LabeledSeriesRow)
    (i : nat) (e : event) : Prop :=
  match e with
  | Makedirs _ => False
  | Print _ => True
  | Imwrite p r s =>
      r = i /\ In s wanted_slices
      /\ exists row, cancer_df !! i = Some row
           /\ p = Path.join (new_image_location w (cancer row))
                            (image_name i s)
  end.

(** The run as far as the start of iteration [i], and the iterations
    after [i]. *)
Definition run_before (w : world) (path_to_manifest_folder : string)
    (cancer_df : list LabeledSeriesRow) (i : nat) : M unit :=
  make_image_dirs w ;;
  for_each (seq 0 i) (process_row w path_to_manifest_folder cancer_df).

Definition run_after (w : world) (path_to_manifest_folder : string)
    (cancer_df : list LabeledSeriesRow) (i : nat) : M unit :=
  for_each (seq (S i) (length cancer_df - S i))
           (process_row w path_to_manifest_folder cancer_df).

End Materializer.

(** * Properties of the float64 rounding *)

Section NumberFacts.

Import Tables.
Local Open Scope Z_scope.

Lemma round_to_multiple_mono (g a b : Z) :
  0 < g -> 0 <= a <= b -> round_to_multiple g a <= round_to_multiple g b.
Proof.
  intros Hg [Ha Hab]. unfold round_to_multiple. cbv zeta.
  pose proof (Z.div_mod a g ltac:(lia)) as Ea.
  pose proof (Z.div_mod b g ltac:(lia)) as Eb.
  pose proof (Z.mod_pos_bound a g Hg) as Ra.
  pose proof (Z.mod_pos_bound b g Hg) as Rb.
  pose proof (Z.div_le_mono a b g Hg Hab) as Hq.
  set (qa := a / g) in *. set (qb := b / g) in *.
  set (ra := a mod g) in *. set (rb := b mod g) in *.
  apply Z.mul_le_mono_nonneg_l; [lia|].
  destruct (Z.eq_dec qa qb) as [E|E].
  - rewrite <- E in *. assert (ra <= rb) by lia.
    destruct (Z.ltb_spec g (2 * ra)), (Z.ltb_spec g (2 * rb)),
      (Z.eqb_spec g (2 * ra)), (Z.eqb_spec g (2 * rb)),
      (Z.odd qa); simpl; lia.
  - assert (qa + 1 <= qb) by lia.
    destruct ((g <? 2 * ra) || (g =? 2 * ra) && Z.odd qa),
      ((g <? 2 * rb) || (g =? 2 * rb) && Z.odd qb); lia.
Qed.

Lemma round_to_multiple_le (g a t : Z) :
  0 < g -> 0 <= a <= g * t -> round_to_multiple g a <= g * t.
Proof.
  intros Hg [Ha Hat]. unfold round_to_multiple. cbv zeta.
  pose proof (Z.div_mod a g ltac:(lia)) as Ea.
  pose proof (Z.mod_pos_bound a g Hg) as Ra.
  set (q := a / g) in *. set (r := a mod g) in *.
  apply Z.mul_le_mono_nonneg_l; [lia|].
  assert (r = 0 /\ q <= t \/ q + 1 <= t) as [[Hr Hq]|Hq] by nia.
  - rewrite Hr.
    destruct (Z.ltb_spec g (2 * 0)), (Z.eqb_spec g (2 * 0)); simpl; lia.
  - destruct ((g <? 2 * r) || (g =? 2 * r) && Z.odd q); lia.
Qed.

Lemma round_to_multiple_ge (g b t : Z) :
  0 < g -> 0 <= g * t <= b -> g * t <= round_to_multiple g b.
Proof.
  intros Hg [Ht Htb]. unfold round_to_multiple. cbv zeta.
  pose proof (Z.div_mod b g ltac:(lia)) as Eb.
  pose proof (Z.mod_pos_bound b g Hg) as Rb.
  set (q := b / g) in *. set (r := b mod g) in *.
  apply Z.mul_le_mono_nonneg_l; [lia|].
  assert (t <= q) by nia.
  destruct ((g <? 2 * r) || (g =? 2 * r) && Z.odd q); lia.
Qed.

Lemma nearest_float64_bounds (a : Z) :
  0 < a -> 2 ^ Z.log2 a <= nearest_float64 a <= 2 ^ (Z.log2 a + 1).
Proof.
  intros Ha. destruct (Z.log2_spec a Ha) as [Hlo Hhi].
  replace (Z.succ (Z.log2 a)) with (Z.log2 a + 1) in Hhi by lia.
  unfold nearest_float64. cbv zeta.
  destruct (Z.leb_spec (Z.log2 a - 52) 0) as [Hs|Hs]; [lia|].
  set (k := Z.log2 a) in *. set (s := k - 52) in *.
  assert (Hg : 0 < 2 ^ s) by (apply Z.pow_pos_nonneg; lia).
  assert (Ek : 2 ^ k = 2 ^ s * 2 ^ 52).
  { rewrite <- Z.pow_add_r by lia. f_equal. lia. }
  assert (Ek1 : 2 ^ (k + 1) = 2 ^ s * 2 ^ 53).
  { rewrite <- Z.pow_add_r by lia. f_equal. lia. }
  split.
  - rewrite Ek. apply round_to_multiple_ge; [exact Hg | lia].
  - rewrite Ek1. apply round_to_multiple_le; [exact Hg | lia].
Qed.

Lemma nearest_float64_nonneg (a : Z) : 0 <= a -> 0 <= nearest_float64 a.
Proof.
  intros Ha. destruct (Z.eq_dec a 0) as [->|Hne]; [reflexivity|].
  pose proof (nearest_float64_bounds a ltac:(lia)) as [H _].
  pose proof (Z.pow_nonneg 2 (Z.log2 a) ltac:(lia)). lia.
Qed.

Lemma nearest_float64_mono (a b : Z) :
  0 <= a <= b -> nearest_float64 a <= nearest_float64 b.
Proof.
  intros [Ha Hab]. destruct (Z.eq_dec a 0) as [->|Hne].
  { change (nearest_float64 0) with 0. apply nearest_float64_nonneg. lia. }
  pose proof (Z.log2_le_mono a b Hab) as Hk.
  destruct (Z.eq_dec (Z.log2 a) (Z.log2 b)) as [E|E].
  - unfold nearest_float64. cbv zeta. rewrite E.
    destruct (Z.leb_spec (Z.log2 b - 52) 0) as [Hs|Hs]; [exact Hab|].
    apply round_to_multiple_mono; [apply Z.pow_pos_nonneg; lia | lia].
  - pose proof (nearest_float64_bounds a ltac:(lia)) as [_ Hup].
    pose proof (nearest_float64_bounds b ltac:(lia)) as [Hlo _].
    assert (2 ^ (Z.log2 a + 1) <= 2 ^ Z.log2 b)
      by (apply Z.pow_le_mono_r; lia).
    lia.
Qed.

Lemma float64_of_int_mono (z1 z2 : Z) :
  z1 <= z2 -> float64_of_int z1 <= float64_of_int z2.
Proof.
  intros H. unfold float64_of_int.
  pose proof (nearest_float64_nonneg (Z.abs z1) (Z.abs_nonneg _)) as N1.
  pose proof (nearest_float64_nonneg (Z.abs z2) (Z.abs_nonneg _)) as N2.
  destruct (Z.sgn_spec z1) as [[H1 ->]|[[H1 ->]|[H1 ->]]];
    destruct (Z.sgn_spec z2) as [[H2 ->]|[[H2 ->]|[H2 ->]]]; try lia.
  - rewrite !Z.mul_1_l. apply nearest_float64_mono. lia.
  - assert (nearest_float64 (Z.abs z2) <= nearest_float64 (Z.abs z1))
      by (apply nearest_float64_mono; lia).
    lia.
Qed.

Lemma float64_of_int_exact (z : Z) :
  Z.abs z <= 2 ^ 53 -> float64_of_int z = z.
Proof.
  intros H. unfold float64_of_int.
  assert (E : nearest_float64 (Z.abs z) = Z.abs z).
  { destruct (Z.eq_dec (Z.abs z) (2 ^ 53)) as [->|Hne]; [reflexivity|].
    unfold nearest_float64. cbv zeta.
    destruct (Z.leb_spec (Z.log2 (Z.abs z) - 52) 0) as [_|Hs]; [reflexivity|].
    exfalso. destruct (Z.eq_dec (Z.abs z) 0) as [E0|E0].
    { rewrite E0 in Hs. simpl in Hs. lia. }
    assert (Z.log2 (Z.abs z) < 53); [|lia].
    apply Z.log2_lt_pow2; lia. }
  rewrite E. destruct z; simpl; lia.
Qed.

End NumberFacts.

(** * Properties of the tables *)

Section TableFacts.

Import Tables.

Lemma same_uid_true (a b : option string) : same_uid a b = true <-> a = b.
Proof. unfold same_uid. apply bool_decide_eq_true. Qed.

Lemma is_US_true (r : StudyMetadataRow) : is_US r = true <-> modality r = "US".
Proof. unfold is_US. apply String.eqb_eq. Qed.

Lemma project_metadata_In (metadata_csv : list RawMetadataRow)
    (r : StudyMetadataRow) :
  In r (project_metadata metadata_csv) <->
  exists raw, In raw metadata_csv /\ keep_metadata_columns raw = r
              /\ raw_modality raw = "US".
Proof.
  unfold project_metadata. rewrite filter_In, in_map_iff, is_US_true.
  split.
  - intros [[raw [Hk Hin]] Hm]. exists raw. subst r. now repeat split.
  - intros [raw [Hin [Hk Hm]]]. subst r. split; [now exists raw | exact Hm].
Qed.

(** The mask commutes with the projection: the rows that survive are the
    projections of the US rows, in their order and with their
    multiplicity. *)
Lemma project_metadata_filter_first (metadata_csv : list RawMetadataRow) :
  project_metadata metadata_csv =
  map keep_metadata_columns
      (List.filter (fun raw => String.eqb (raw_modality raw) "US")
                   metadata_csv).
Proof.
  unfold project_metadata.
  induction metadata_csv as [|raw rest IH]; simpl; [reflexivity|].
  unfold is_US at 1. simpl.
  destruct (String.eqb (raw_modality raw) "US"); simpl; now rewrite IH.
Qed.

(** The threshold in front of a float64 column is the threshold itself up
    to 2^53 in magnitude, and its rounding keeps the order. *)
Lemma score_ge_exact (score : score_cell) (threshold : Z) :
  (Z.abs threshold <= 2 ^ 53)%Z ->
  score_ge score threshold = true <->
  exists v, score_value score = Some v /\ (inject_Z threshold <= v)%Q.
Proof.
  intros Hth. destruct score as [z|q|]; simpl.
  - rewrite Z.leb_le, Zle_Qle. split.
    + intros H. now exists (inject_Z z).
    + now intros (v & [= <-] & H).
  - rewrite float64_of_int_exact, Qle_bool_iff by exact Hth. split.
    + intros H. now exists q.
    + now intros (v & [= <-] & H).
  - split; [discriminate | now intros (v & [=] & _)].
Qed.

Lemma score_ge_mono (score : score_cell) (th1 th2 : Z) :
  (th1 <= th2)%Z -> score_ge score th2 = true -> score_ge score th1 = true.
Proof.
  intros Hle. destruct score as [z|q|]; simpl; [| |auto].
  - rewrite !Z.leb_le. lia.
  - rewrite !Qle_bool_iff. intros H.
    apply Qle_trans with (inject_Z (float64_of_int th2)); [|exact H].
    rewrite <- Zle_Qle. now apply float64_of_int_mono.
Qed.

(** A row is in the merged table exactly when it pairs a left and a right
    row that agree on the key. *)
Lemma merge_In (left : list StudyMetadataRow) (right : list LabeledScoreRow)
    (row : LabeledSeriesRow) :
  In row (merge_on_series_uid left right) <->
  exists l r, In l left /\ In r right
              /\ score_series_uid (scored r) = metadata_series_uid l
              /\ row = merged_row l r.
Proof.
  unfold merge_on_series_uid. rewrite in_flat_map. split.
  - intros [l [Hl Hrow]]. apply in_map_iff in Hrow as [r [Hr Hin]].
    apply filter_In in Hin as [Hin Hk]. apply same_uid_true in Hk.
    exists l, r. now repeat split.
  - intros [l [r [Hl [Hr [Hk ->]]]]]. exists l. split; [exact Hl|].
    apply in_map. apply filter_In. split; [exact Hr|].
    now apply same_uid_true.
Qed.

Lemma count_uid_app {A : Type} (key : A -> option string)
    (uid : option string) (t1 t2 : list A) :
  count_uid key uid (t1 ++ t2) = count_uid key uid t1 + count_uid key uid t2.
Proof. unfold count_uid. now rewrite List.filter_app, List.length_app. Qed.

(** The block of merged rows that one left row contributes. *)
Lemma count_uid_block (l : StudyMetadataRow) (right : list LabeledScoreRow)
    (uid : option string) :
  count_uid ls_series_uid uid
    (map (merged_row l)
       (List.filter
          (fun r => same_uid (score_series_uid (scored r))
                             (metadata_series_uid l)) right)) =
  if same_uid (metadata_series_uid l) uid
  then count_uid (fun r => score_series_uid (scored r)) uid right
  else 0.
Proof.
  unfold count_uid.
  induction right as [|r right IH]; simpl.
  - now destruct (same_uid (metadata_series_uid l) uid).
  - destruct (same_uid (score_series_uid (scored r)) (metadata_series_uid l))
      eqn:Hk; simpl.
    + apply same_uid_true in Hk. rewrite Hk.
      destruct (same_uid (metadata_series_uid l) uid) eqn:Hu; simpl.
      * now rewrite IH.
      * exact IH.
    + destruct (same_uid (metadata_series_uid l) uid) eqn:Hu.
      * apply same_uid_true in Hu. subst uid. rewrite Hk. exact IH.
      * exact IH.
Qed.

Lemma count_uid_merge (left : list StudyMetadataRow)
    (right : list LabeledScoreRow) (uid : option string) :
  count_uid ls_series_uid uid (merge_on_series_uid left right) =
  count_uid metadata_series_uid uid left
  * count_uid (fun r => score_series_uid (scored r)) uid right.
Proof.
  induction left as [|l left IH]; [reflexivity|].
  unfold merge_on_series_uid in *. simpl flat_map.
  rewrite count_uid_app, IH, count_uid_block.
  change (count_uid metadata_series_uid uid (l :: left))
    with (length (List.filter (fun r => same_uid (metadata_series_uid r) uid)
                              (l :: left))).
  simpl List.filter.
  destruct (same_uid (metadata_series_uid l) uid); simpl length;
    fold (count_uid metadata_series_uid uid left); lia.
Qed.

Lemma count_uid_label (threshold : Z) (t : list ScoreRow)
    (uid : option string) :
  count_uid (fun r => score_series_uid (scored r)) uid
            (label_target threshold t) =
  count_uid score_series_uid uid t.
Proof.
  unfold count_uid, label_target.
  induction t as [|r t IH]; simpl; [reflexivity|].
  destruct (same_uid (score_series_uid r) uid); simpl; now rewrite IH.
Qed.

End TableFacts.

Section TableClaims.

Import Tables.


(** C4: after the projection and the mask on [Modality], every surviving
    metadata row has Modality "US", every input row with Modality "US"
    survives, every surviving row is the projection of a US input row, and
    the step neither reorders nor duplicates: the result is the projection
    of the US rows of the input. *)
Theorem project_metadata_keeps_exactly_US
    (metadata_csv : list RawMetadataRow) :
  (forall r, In r (project_metadata metadata_csv) -> modality r = "US")
  /\ (forall raw, In raw metadata_csv -> raw_modality raw = "US" ->
        In (keep_metadata_columns raw) (project_metadata metadata_csv))
  /\ (forall r, In r (project_metadata metadata_csv) ->
        exists raw, In raw metadata_csv /\ raw_modality raw = "US"
                    /\ keep_metadata_columns raw = r)
  /\ project_metadata metadata_csv =
     map keep_metadata_columns
       (List.filter (fun raw => String.eqb (raw_modality raw) "US")
                    metadata_csv).
Proof.
  repeat split.
  - intros r Hr. apply project_metadata_In in Hr as [raw [_ [<- Hm]]].
    exact Hm.
  - intros raw Hin Hm. apply project_metadata_In. now exists raw.
  - intros r Hr. apply project_metadata_In in Hr as [raw [Hin [Hk Hm]]].
    now exists raw.
  - apply project_metadata_filter_first.
Qed.


(** C2: the merge is an inner join on Series UID: a series identifier
    labels some row of the output if and only if it occurs both in the
    projected (US) metadata table and in the projected score table. *)
Theorem merge_is_inner_join
    (metadata_csv : list RawMetadataRow) (target_xlsx : list RawTargetRow)
    (threshold : Z) (uid : option string) :
  (exists row, In row (get_cancer_df metadata_csv target_xlsx threshold)
               /\ ls_series_uid row = uid)
  <->
  (exists l, In l (project_metadata metadata_csv)
             /\ metadata_series_uid l = uid)
  /\ (exists r, In r (project_target target_xlsx)
                /\ score_series_uid r = uid).
Proof.
  unfold get_cancer_df. split.
  - intros [row [Hrow Huid]].
    apply merge_In in Hrow as [l [r [Hl [Hr [Hk ->]]]]]. simpl in Huid.
    split; [now exists l|].
    unfold label_target in Hr. apply in_map_iff in Hr as [sr [<- Hsr]].
    exists sr. split; [exact Hsr|]. simpl in Hk. congruence.
  - intros [[l [Hl Hlu]] [r [Hr Hru]]].
    exists (merged_row l (add_cancer_column threshold r)).
    split; [|exact Hlu]. apply merge_In.
    exists l, (add_cancer_column threshold r).
    split; [exact Hl|]. split; [now apply in_map|].
    split; [simpl; congruence | reflexivity].
Qed.

(** C7: the join does not deduplicate: a series identifier that occurs m
    times in the filtered metadata table and k times in the score table
    labels exactly m * k rows of the joined table. *)
Theorem merge_fans_out
    (metadata_csv : list RawMetadataRow) (target_xlsx : list RawTargetRow)
    (threshold : Z) (uid : option string) :
  count_uid ls_series_uid uid
            (get_cancer_df metadata_csv target_xlsx threshold) =
  count_uid metadata_series_uid uid (project_metadata metadata_csv)
  * count_uid score_series_uid uid (project_target target_xlsx).
Proof.
  unfold get_cancer_df. now rewrite count_uid_merge, count_uid_label.
Qed.

End TableClaims.

(** * Properties of the materializer *)

Section MonadFacts.

Import Materializer.
Local Open Scope py_scope.

Lemma outcome_eta {A : Type} (o : outcome A) :
  Outcome (res o) (dirs o) (out o) = o.
Proof. now destruct o. Qed.

Lemma bind_ret_l {A B : Type} (a : A) (k : A -> M B) (d : gset string) :
  bind (ret a) k d = k a d.
Proof. unfold bind, ret. simpl. apply outcome_eta. Qed.

Lemma bind_assoc {A B C : Type} (m : M A) (k : A -> M B) (h : B -> M C)
    (d : gset string) :
  bind (bind m k) h d = bind m (fun a => bind (k a) h) d.
Proof.
  unfold bind. destruct (m d) as [[e|a] d1 t1]; simpl; [reflexivity|].
  destruct (k a d1) as [[e|b] d2 t2]; simpl; [reflexivity|].
  now rewrite List.app_assoc.
Qed.

Lemma bind_ext {A B : Type} (m : M A) (k k' : A -> M B) (d : gset string) :
  (forall a d', k a d' = k' a d') -> bind m k d = bind m k' d.
Proof.
  intros Hk. unfold bind. destruct (res (m d)); [reflexivity|].
  now rewrite Hk.
Qed.

Lemma for_each_cons {A : Type} (x : A) (xs : list A) (body : A -> M unit) :
  for_each (x :: xs) body = (body x ;; for_each xs body).
Proof. reflexivity. Qed.

Lemma for_each_app {A : Type} (xs ys : list A) (body : A -> M unit)
    (d : gset string) :
  for_each (xs ++ ys) body d = (for_each xs body ;; for_each ys body) d.
Proof.
  revert d. induction xs as [|x xs IH]; intros d.
  - change (for_each [] body) with (@ret unit tt). now rewrite bind_ret_l.
  - rewrite <- List.app_comm_cons, !for_each_cons, bind_assoc.
    apply bind_ext. intros _ d'. apply IH.
Qed.

Lemma confined_ret {A : Type} (P : event -> Prop) (a : A) :
  confined P (ret a).
Proof. intros d. simpl. auto. Qed.

Lemma confined_raise {A : Type} (P : event -> Prop) (e : exn) :
  confined P (@raise A e).
Proof. intros d. simpl. auto. Qed.

Lemma confined_call {A : Type} (P : event -> Prop) (r : exn + A) :
  confined P (call r).
Proof. intros d. simpl. auto. Qed.

Lemma confined_emit (P : event -> Prop) (e : event) :
  P e -> confined P (emit e).
Proof. intros He d. simpl. auto. Qed.

Lemma confined_bind {A B : Type} (P : event -> Prop) (m : M A)
    (k : A -> M B) :
  confined P m -> (forall a, confined P (k a)) -> confined P (bind m k).
Proof.
  intros Hm Hk d. unfold bind. destruct (Hm d) as [Hd Ht].
  destruct (m d) as [[e|a] d1 t1]; simpl in *; [auto|].
  destruct (Hk a d1) as [Hd' Ht']. split; [congruence|].
  apply Forall_app. auto.
Qed.

Lemma confined_try_except {A : Type} (P : event -> Prop)
    (body handler : M A) :
  confined P body -> confined P handler ->
  confined P (try_except body handler).
Proof.
  intros Hb Hh d. unfold try_except. destruct (Hb d) as [Hd Ht].
  destruct (body d) as [[e|a] d1 t1]; simpl in *; [|auto].
  destruct (Hh d1) as [Hd' Ht']. split; [congruence|].
  apply Forall_app. auto.
Qed.

Lemma confined_for_each {A : Type} (P : event -> Prop) (xs : list A)
    (body : A -> M unit) :
  (forall x, In x xs -> confined P (body x)) -> confined P (for_each xs body).
Proof.
  induction xs as [|x xs IH]; intros Hb; simpl.
  - apply confined_ret.
  - apply confined_bind.
    + apply Hb. now left.
    + intros _. apply IH. intros y Hy. apply Hb. now right.
Qed.

Lemma confined_weaken {A : Type} (P Q : event -> Prop) (m : M A) :
  (forall e, P e -> Q e) -> confined P m -> confined Q m.
Proof.
  intros HPQ Hm d. destruct (Hm d) as [Hd Ht]. split; [exact Hd|].
  eapply Forall_impl; eauto.
Qed.

Lemma bind_out {A B : Type} (m : M A) (k : A -> M B) (d : gset string) :
  out (bind m k d) =
  out (m d) ++ match res (m d) with
               | inr a => out (k a (dirs (m d)))
               | inl _ => []
               end.
Proof.
  unfold bind. destruct (res (m d)); simpl; [now rewrite List.app_nil_r|].
  reflexivity.
Qed.

Lemma bind_res {A B : Type} (m : M A) (k : A -> M B) (d : gset string) :
  res (bind m k d) =
  match res (m d) with
  | inl e => inl e
  | inr a => res (k a (dirs (m d)))
  end.
Proof. unfold bind. now destruct (res (m d)). Qed.

Lemma bind_dirs {A B : Type} (m : M A) (k : A -> M B) (d : gset string) :
  dirs (bind m k d) =
  match res (m d) with
  | inl _ => dirs (m d)
  | inr a => dirs (k a (dirs (m d)))
  end.
Proof. unfold bind. now destruct (res (m d)). Qed.

End MonadFacts.

Section PathFacts.

Lemma app_cons (c : ascii) (a b : string) :
  String c a +:+ b = String c (a +:+ b).
Proof. reflexivity. Qed.

Lemma app_empty_l (b : string) : "" +:+ b = b.
Proof. reflexivity. Qed.

Lemma string_app_assoc (a b c : string) : (a +:+ b) +:+ c = a +:+ (b +:+ c).
Proof.
  induction a as [|x a IH]; [reflexivity|].
  rewrite !app_cons. now rewrite IH.
Qed.

Lemma join_relative (a b : string) :
  Path.startswith_sep b = false -> Path.join a b = Path.join_prefix a +:+ b.
Proof.
  intros Hb. unfold Path.join, Path.join_prefix. rewrite Hb.
  destruct (String.eqb a "" || Path.endswith_sep a); [reflexivity|].
  now rewrite string_app_assoc.
Qed.

Lemma endswith_sep_cons (c : ascii) (a : string) :
  a <> "" -> Path.endswith_sep (String c a) = Path.endswith_sep a.
Proof. destruct a; [congruence | reflexivity]. Qed.

Lemma app_not_empty (a b : string) : b <> "" -> a +:+ b <> "".
Proof.
  destruct a; [now rewrite app_empty_l | rewrite app_cons; discriminate].
Qed.

Lemma endswith_sep_app (a b : string) :
  b <> "" -> Path.endswith_sep (a +:+ b) = Path.endswith_sep b.
Proof.
  intros Hb. induction a as [|c a IH]; [reflexivity|].
  rewrite app_cons, endswith_sep_cons; [exact IH|].
  now apply app_not_empty.
Qed.

(** Joining a file name to a directory that ends in a plain name puts
    exactly one separator between them. *)
Lemma join_plain (x dir name : string) :
  dir <> "" -> Path.endswith_sep dir = false ->
  Path.startswith_sep name = false ->
  Path.join (x +:+ dir) name = x +:+ dir +:+ "/" +:+ name.
Proof.
  intros Hd He Hn. unfold Path.join. rewrite Hn.
  rewrite endswith_sep_app, He by exact Hd.
  destruct (String.eqb_spec (x +:+ dir) "") as [Hx|_].
  - now apply app_not_empty in Hx.
  - simpl. now rewrite !string_app_assoc.
Qed.

End PathFacts.

Section SliceFacts.

Import Materializer.
Local Open Scope py_scope.

Variable w : world.
Variable location : string.
Variable i : nat.

Lemma write_slice_run (slice_number : nat) (d : gset string) :
  write_slice w location i slice_number d =
  Outcome (inr tt) d (slice_calls w location i slice_number).
Proof.
  unfold write_slice, slice_calls.
  destruct (existsb (Nat.eqb slice_number) wanted_slices); [|reflexivity].
  cbv zeta. unfold bind, emit, print. simpl.
  now destruct (imwrite w (Path.join location (image_name i slice_number))).
Qed.

Lemma slice_loop_run (slices : list nat) (d : gset string) :
  for_each slices (write_slice w location i) d =
  Outcome (inr tt) d (flat_map (slice_calls w location i) slices).
Proof.
  induction slices as [|s slices IH]; [reflexivity|].
  rewrite for_each_cons. unfold bind. rewrite write_slice_run. simpl.
  now rewrite IH.
Qed.

Lemma write_slices_run (shape0 : nat) (d : gset string) :
  write_slices w location i shape0 d =
  Outcome (inr tt) d (flat_map (slice_calls w location i) (seq 0 shape0)).
Proof. apply slice_loop_run. Qed.

Lemma writes_slice_calls (slices : list nat) :
  writes (flat_map (slice_calls w location i) slices) =
  map (slice_write location i)
      (List.filter (fun s => existsb (Nat.eqb s) wanted_slices) slices).
Proof.
  unfold writes.
  induction slices as [|s slices IH]; [reflexivity|].
  cbn [flat_map]. rewrite List.filter_app, IH. cbn [List.filter].
  unfold slice_calls.
  destruct (existsb (Nat.eqb s) wanted_slices); reflexivity.
Qed.

End SliceFacts.

Section RangeFacts.

Import Materializer.

(** Of the indices below [n], the wanted ones are the wanted indices that
    are below [n], in increasing order. *)
Lemma wanted_in_range (n : nat) :
  List.filter (fun s => existsb (Nat.eqb s) wanted_slices) (seq 0 n) =
  List.filter (fun s => s <? n) wanted_slices.
Proof.
  induction n as [|n IH]; [reflexivity|].
  rewrite seq_S, List.filter_app, IH. unfold wanted_slices.
  cbn [List.filter existsb Nat.add app].
  destruct (Nat.eqb_spec n 130) as [E1|E1];
    destruct (Nat.eqb_spec n 134) as [E2|E2];
    destruct (Nat.ltb_spec 130 n) as [L1|L1];
    destruct (Nat.ltb_spec 134 n) as [L2|L2];
    destruct (Nat.ltb_spec 130 (S n)) as [L3|L3];
    destruct (Nat.ltb_spec 134 (S n)) as [L4|L4];
    try lia; try subst n; reflexivity.
Qed.

End RangeFacts.

Section RowFacts.

Import Tables Materializer.
Local Open Scope py_scope.

Variable w : world.
Variable path_to_manifest_folder : string.
Variable cancer_df : list LabeledSeriesRow.

Lemma process_row_unlistable (i : nat) (row : LabeledSeriesRow)
    (d : gset string) :
  cancer_df !! i = Some row ->
  unlistable w path_to_manifest_folder i row ->
  process_row w path_to_manifest_folder cancer_df i d =
  Outcome (inr tt) d
    [Print (skip_message (series_dir path_to_manifest_folder row))].
Proof.
  intros Hrow Hl. unfold process_row. rewrite Hrow. cbv zeta.
  unfold bind, try_except, first_entry, bind, call, print, emit, ret, raise.
  destruct Hl as [[e He]|He]; rewrite He; reflexivity.
Qed.

Lemma process_row_listed (i : nat) (row : LabeledSeriesRow)
    (name : string) (others : list string) (d : gset string) :
  cancer_df !! i = Some row ->
  listdir w i (series_dir path_to_manifest_folder row)
  = inr (name :: others) ->
  process_row w path_to_manifest_folder cancer_df i d =
  (ds <- call (dcmread w i
                 (Path.join (series_dir path_to_manifest_folder row) name)) ;;
   shape0 <- call (pixel_array ds) ;;
   write_slices w (new_image_location w (cancer row)) i shape0) d.
Proof.
  intros Hrow Hl. unfold process_row. rewrite Hrow. cbv zeta.
  set (rest := fun found : option string => match found with
                                            | Some n => _ | None => _ end).
  unfold bind at 1.
  unfold try_except, first_entry, bind, call, ret. rewrite Hl. simpl.
  apply outcome_eta.
Qed.

Lemma process_row_readable (i : nat) (row : LabeledSeriesRow)
    (name : string) (others : list string) (ds : dataset) (shape0 : nat)
    (d : gset string) :
  cancer_df !! i = Some row ->
  listdir w i (series_dir path_to_manifest_folder row)
  = inr (name :: others) ->
  dcmread w i (Path.join (series_dir path_to_manifest_folder row) name)
  = inr ds ->
  pixel_array ds = inr shape0 ->
  process_row w path_to_manifest_folder cancer_df i d =
  write_slices w (new_image_location w (cancer row)) i shape0 d.
Proof.
  intros Hrow Hl Hds Hpx. rewrite (process_row_listed i row name others) by
    assumption.
  unfold bind, call. rewrite Hds. simpl. rewrite Hpx. simpl.
  apply outcome_eta.
Qed.

Lemma process_row_undecodable (i : nat) (row : LabeledSeriesRow) (e : exn)
    (d : gset string) :
  cancer_df !! i = Some row ->
  undecodable w path_to_manifest_folder i row e ->
  process_row w path_to_manifest_folder cancer_df i d = Outcome (inl e) d [].
Proof.
  intros Hrow (name & others & Hl & Hfail).
  rewrite (process_row_listed i row name others) by assumption.
  unfold bind, call.
  destruct Hfail as [Hds|[ds [Hds Hpx]]]; rewrite Hds; simpl;
    [reflexivity|].
  rewrite Hpx. reflexivity.
Qed.

Lemma slice_calls_row_call (i : nat) (row : LabeledSeriesRow) (s : nat) :
  cancer_df !! i = Some row ->
  Forall (row_call w cancer_df i)
         (slice_calls w (new_image_location w (cancer row)) i s).
Proof.
  intros Hrow. unfold slice_calls.
  destruct (existsb (Nat.eqb s) wanted_slices) eqn:Hs; [|constructor].
  apply existsb_exists in Hs as [x [Hx Hxs]].
  apply Nat.eqb_eq in Hxs. subst x.
  constructor.
  - split; [reflexivity|]. split; [exact Hx|]. now exists row.
  - constructor; [exact I | constructor].
Qed.

Lemma process_row_confined (i : nat) :
  confined (row_call w cancer_df i)
           (process_row w path_to_manifest_folder cancer_df i).
Proof.
  unfold process_row. destruct (cancer_df !! i) as [row|] eqn:Hrow;
    [|apply confined_raise].
  cbv zeta. apply confined_bind.
  - apply confined_try_except.
    + apply confined_bind.
      * unfold first_entry. apply confined_bind; [apply confined_call|].
        intros [|name others]; [apply confined_raise | apply confined_ret].
      * intros name. apply confined_ret.
    + apply confined_bind; [now apply confined_emit|].
      intros _. apply confined_ret.
  - intros [name|]; [|apply confined_ret].
    apply confined_bind; [apply confined_call|]. intros ds.
    apply confined_bind; [apply confined_call|]. intros shape0 d.
    rewrite write_slices_run. simpl. split; [reflexivity|].
    apply Forall_flat_map, Forall_forall. intros s _.
    now apply slice_calls_row_call.
Qed.

End RowFacts.

Section DirFacts.

Import Materializer.
Local Open Scope py_scope.

Variable w : world.

Lemma bind_path_exists {B : Type} (p : string) (k : bool -> M B)
    (d : gset string) :
  bind (path_exists p) k d = k (bool_decide (p ∈ d)) d.
Proof. unfold bind, path_exists. cbn. apply outcome_eta. Qed.

Lemma mkdir_run (q : string) (d : gset string) :
  out (mkdir w q d) = []
  /\ d ⊆ dirs (mkdir w q d)
  /\ (res (mkdir w q d) = inr tt -> q ∈ dirs (mkdir w q d)).
Proof.
  unfold mkdir. destruct (bool_decide (q ∈ d)); [now cbn|].
  destruct (mkdir_error w q); cbn; [easy|].
  split; [reflexivity|]. split; set_solver.
Qed.

(** The recursion of [os.makedirs] makes no call of its own in the trace,
    removes nothing, and ends normally only with [name] in existence. *)
Lemma makedirs_from_run (name : string) (ancestors : list string)
    (d : gset string) :
  out (makedirs_from w name ancestors d) = []
  /\ d ⊆ dirs (makedirs_from w name ancestors d)
  /\ (res (makedirs_from w name ancestors d) = inr tt ->
      name ∈ dirs (makedirs_from w name ancestors d)).
Proof.
  revert name d. induction ancestors as [|head further IH]; intros name d.
  - cbn [makedirs_from]. rewrite bind_ret_l. apply mkdir_run.
  - cbn [makedirs_from]. rewrite bind_assoc, bind_path_exists.
    destruct (IH head d) as (Hout & Hsub & _).
    set (first := if negb (bool_decide (head ∈ d))
                  then pass_file_exists (makedirs_from w head further)
                  else ret tt).
    assert (Hfirst : out (first d) = [] /\ d ⊆ dirs (first d)).
    { unfold first. destruct (bool_decide (head ∈ d)); cbn [negb];
        [now cbn|].
      unfold pass_file_exists.
      destruct (res (makedirs_from w head further d)) as [[]|[]];
        cbn [out dirs]; auto. }
    destruct Hfirst as [Hfo Hfs].
    rewrite bind_out, bind_dirs, bind_res, Hfo. cbn [app].
    destruct (res (first d)) as [e|[]];
      [split; [reflexivity|]; split; [exact Hfs | discriminate]|].
    destruct (mkdir_run name (dirs (first d))) as (Ho & Hs & Hin).
    split; [exact Ho|]. split; [now transitivity (dirs (first d)) |].
    exact Hin.
Qed.

Lemma makedirs_run (p : string) (d : gset string) :
  out (makedirs w p d) = [Makedirs p]
  /\ d ⊆ dirs (makedirs w p d)
  /\ (res (makedirs w p d) = inr tt -> p ∈ dirs (makedirs w p d)).
Proof.
  unfold makedirs. rewrite bind_out, bind_dirs, bind_res.
  cbn [emit res dirs out].
  destruct (makedirs_from_run p (rev (Path.parents p)) d) as (Ho & Hs & Hin).
  now rewrite Ho.
Qed.

(** [if not os.path.exists(p): os.makedirs(p)] *)
Definition ensure_dir (p : string) : M unit :=
  e <- path_exists p ;; if negb e then makedirs w p else ret tt.

Lemma ensure_dir_present (p : string) (d : gset string) :
  p ∈ d -> ensure_dir p d = Outcome (inr tt) d [].
Proof.
  intros Hp. unfold ensure_dir. rewrite bind_path_exists.
  now rewrite (bool_decide_eq_true_2 _ Hp).
Qed.

Lemma ensure_dir_run (p : string) (d : gset string) :
  (out (ensure_dir p d) = [] /\ p ∈ d
   \/ out (ensure_dir p d) = [Makedirs p] /\ p ∉ d)
  /\ d ⊆ dirs (ensure_dir p d)
  /\ (res (ensure_dir p d) = inr tt -> p ∈ dirs (ensure_dir p d)).
Proof.
  destruct (decide (p ∈ d)) as [Hp|Hp].
  - rewrite (ensure_dir_present p d Hp). cbn. auto.
  - unfold ensure_dir. rewrite bind_path_exists.
    rewrite (bool_decide_eq_false_2 _ Hp). cbn [negb].
    destruct (makedirs_run p d) as (Ho & Hs & Hin). auto.
Qed.

Lemma make_image_dirs_ensure (d : gset string) :
  make_image_dirs w d =
  (ensure_dir cancer_image_path ;; ensure_dir nonmalignant_image_path) d.
Proof.
  unfold make_image_dirs, ensure_dir. now rewrite bind_assoc.
Qed.

(** The creation step: at most one [os.makedirs] call for each label
    directory, in order and only for one that does not exist; nothing is
    removed; it ends normally only with both directories in existence,
    and it does nothing when both exist. *)
Lemma make_image_dirs_run (d : gset string) :
  sublist (out (make_image_dirs w d))
          [Makedirs cancer_image_path; Makedirs nonmalignant_image_path]
  /\ (forall p, In (Makedirs p) (out (make_image_dirs w d)) -> p ∉ d)
  /\ d ⊆ dirs (make_image_dirs w d)
  /\ (res (make_image_dirs w d) = inr tt ->
      cancer_image_path ∈ dirs (make_image_dirs w d)
      /\ nonmalignant_image_path ∈ dirs (make_image_dirs w d)).
Proof.
  rewrite make_image_dirs_ensure, bind_out, bind_dirs, bind_res.
  destruct (ensure_dir_run cancer_image_path d) as (Hc & Hcs & Hcin).
  destruct (res (ensure_dir cancer_image_path d)) as [e|[]].
  - rewrite List.app_nil_r. split; [|split; [|split; [exact Hcs|easy]]].
    + destruct Hc as [[-> _]|[-> _]]; repeat constructor.
    + intros p Hp. destruct Hc as [[Ho _]|[Ho Hn]]; rewrite Ho in Hp;
        [destruct Hp|]. destruct Hp as [[= <-]|[]]. exact Hn.
  - set (d1 := dirs (ensure_dir cancer_image_path d)) in *.
    destruct (ensure_dir_run nonmalignant_image_path d1) as (Hn & Hns & Hnin).
    split; [|split; [|split]].
    + destruct Hc as [[-> _]|[-> _]], Hn as [[-> _]|[-> _]];
        cbn [app]; repeat constructor.
    + intros p Hp. apply in_app_or in Hp as [Hp|Hp].
      * destruct Hc as [[Ho _]|[Ho Hnot]]; rewrite Ho in Hp;
          [destruct Hp|]. destruct Hp as [[= <-]|[]]. exact Hnot.
      * destruct Hn as [[Ho _]|[Ho Hnot]]; rewrite Ho in Hp;
          [destruct Hp|]. destruct Hp as [[= <-]|[]].
        intros Hd. apply Hnot, Hcs, Hd.
    + now transitivity d1.
    + intros Hres. split; [|now apply Hnin].
      apply Hns. now apply Hcin.
Qed.


Lemma make_image_dirs_steps (d : gset string) :
  Forall (fun e => is_makedirs e = true) (out (make_image_dirs w d)).
Proof.
  destruct (make_image_dirs_run d) as (Hsub & _).
  apply List.Forall_forall. intros e He.
  assert (Hin : e ∈ [Makedirs cancer_image_path;
                     Makedirs nonmalignant_image_path]).
  { eapply elem_of_sublist; [|exact Hsub]. now apply list_elem_of_In. }
  apply list_elem_of_In in Hin. simpl in Hin.
  destruct Hin as [<-|[<-|[]]]; reflexivity.
Qed.

End DirFacts.

Section RunFacts.

Import Tables Materializer.
Local Open Scope py_scope.

Variable w : world.
Variable path_to_manifest_folder : string.
Variable cancer_df : list LabeledSeriesRow.

Let body : nat -> M unit :=
  process_row w path_to_manifest_folder cancer_df.

Lemma rows_split (i : nat) :
  i < length cancer_df ->
  seq 0 (length cancer_df) =
  seq 0 i ++ i :: seq (S i) (length cancer_df - S i).
Proof.
  intros Hi.
  replace (length cancer_df) with (i + S (length cancer_df - S i)) at 1
    by lia.
  now rewrite seq_app.
Qed.

Lemma run_split (i : nat) (d : gset string) :
  i < length cancer_df ->
  create_image_datasets w cancer_df path_to_manifest_folder d =
  (run_before w path_to_manifest_folder cancer_df i ;; body i ;;
   run_after w path_to_manifest_folder cancer_df i) d.
Proof.
  intros Hi. unfold create_image_datasets, run_before, run_after.
  fold body. rewrite (rows_split i Hi), bind_assoc.
  apply bind_ext. intros _ d'. rewrite for_each_app.
  reflexivity.
Qed.

Lemma loop_confined (P : event -> Prop) (indices : list nat) :
  (forall j e, In j indices -> row_call w cancer_df j e -> P e) ->
  confined P (for_each indices body).
Proof.
  intros HP. apply confined_for_each. intros j Hj.
  apply (confined_weaken (row_call w cancer_df j));
    [intros e; now apply (HP j)|].
  apply process_row_confined.
Qed.


Lemma filter_none {A : Type} (f : A -> bool) (l : list A) :
  Forall (fun x => f x = false) l -> List.filter f l = [].
Proof.
  induction 1 as [|x l Hx _ IH]; [reflexivity|]. simpl. now rewrite Hx.
Qed.

(** Iterations other than [i] write nothing for row [i]. *)
Lemma loop_writes_of_other (i : nat) (indices : list nat) (d : gset string) :
  ~ In i indices -> writes_of i (out (for_each indices body d)) = [].
Proof.
  intros Hi. apply filter_none.
  apply (loop_confined (fun e => is_write_of i e = false)).
  intros j [p|msg|p r s] Hj H; simpl in *; try reflexivity.
  destruct H as [-> _]. apply Nat.eqb_neq. intros ->. contradiction.
Qed.

Lemma makedirs_not_write (i : nat) (t : list event) :
  Forall (fun e => is_makedirs e = true) t -> writes_of i t = [].
Proof.
  intros H. apply filter_none. eapply List.Forall_impl; [|exact H].
  now intros [p|msg|p r s].
Qed.

Lemma dirs_writes_of (i : nat) (d : gset string) :
  writes_of i (out (make_image_dirs w d)) = [].
Proof. apply makedirs_not_write, make_image_dirs_steps. Qed.

Lemma run_before_writes_of (i : nat) (d : gset string) :
  writes_of i (out (run_before w path_to_manifest_folder cancer_df i d)) = [].
Proof.
  unfold run_before. rewrite bind_out. unfold writes_of.
  rewrite List.filter_app. fold (writes_of i (out (make_image_dirs w d))).
  rewrite dirs_writes_of. cbn [app].
  destruct (res (make_image_dirs w d)); [reflexivity|].
  apply loop_writes_of_other. rewrite in_seq. lia.
Qed.

(** The writes of an iteration are all for its own row. *)
Lemma body_writes_of (i : nat) (d : gset string) :
  writes_of i (out (body i d)) = writes (out (body i d)).
Proof.
  destruct (process_row_confined w path_to_manifest_folder cancer_df i d)
    as [_ H]. fold body in H.
  unfold writes_of, writes.
  induction H as [|e t He _ IH]; [reflexivity|]. simpl. rewrite IH.
  destruct e as [p|msg|p r s]; simpl in *; try reflexivity.
  destruct He as [-> _]. now rewrite Nat.eqb_refl.
Qed.

(** Once the run gets to iteration [i], the writes for row [i] in the
    whole run are the writes of that iteration. *)
Lemma run_writes_of (i : nat) (d : gset string) :
  i < length cancer_df ->
  res (run_before w path_to_manifest_folder cancer_df i d) = inr tt ->
  writes_of i
    (out (create_image_datasets w cancer_df path_to_manifest_folder d)) =
  writes
    (out (body i (dirs (run_before w path_to_manifest_folder cancer_df i d)))).
Proof.
  intros Hi Hres. rewrite (run_split i d Hi).
  set (before := run_before w path_to_manifest_folder cancer_df i) in *.
  rewrite bind_out, Hres. unfold writes_of at 1.
  rewrite List.filter_app. fold (writes_of i (out (before d))).
  unfold before at 1. rewrite run_before_writes_of. cbn [app].
  rewrite bind_out, List.filter_app.
  fold (writes_of i (out (body i (dirs (before d))))).
  rewrite body_writes_of.
  match goal with |- _ ++ ?t = _ => assert (t = []) as -> end;
    [|now rewrite List.app_nil_r].
  destruct (res (body i (dirs (before d)))); [reflexivity|].
  apply loop_writes_of_other. rewrite in_seq. lia.
Qed.

End RunFacts.

Section SliceClaims.

Import Tables Materializer.
Local Open Scope py_scope.

Variable w : world.
Variable path_to_manifest_folder : string.
Variable cancer_df : list LabeledSeriesRow.

(** The writes of a readable row with [shape0] slices, within its own
    iteration and within the whole run. *)
Lemma readable_row_writes (i : nat) (row : LabeledSeriesRow) (name : string)
    (others : list string) (ds : dataset) (shape0 : nat) :
  cancer_df !! i = Some row ->
  listdir w i (series_dir path_to_manifest_folder row)
  = inr (name :: others) ->
  dcmread w i (Path.join (series_dir path_to_manifest_folder row) name)
  = inr ds ->
  pixel_array ds = inr shape0 ->
  let wanted :=
    map (slice_write (new_image_location w (cancer row)) i)
        (List.filter (fun s => s <? shape0) wanted_slices) in
  forall d,
    process_row w path_to_manifest_folder cancer_df i d =
    Outcome (inr tt) d
      (flat_map (slice_calls w (new_image_location w (cancer row)) i)
                (seq 0 shape0))
    /\ writes (out (process_row w path_to_manifest_folder cancer_df i d))
       = wanted
    /\ (res (run_before w path_to_manifest_folder cancer_df i d) = inr tt ->
        writes_of i
          (out (create_image_datasets w cancer_df path_to_manifest_folder d))
        = wanted).
Proof.
  intros Hrow Hl Hds Hpx wanted d.
  assert (Hrun : forall d',
    process_row w path_to_manifest_folder cancer_df i d' =
    Outcome (inr tt) d'
      (flat_map (slice_calls w (new_image_location w (cancer row)) i)
                (seq 0 shape0))).
  { intros d'.
    rewrite (process_row_readable _ _ _ i row name others ds shape0)
      by assumption.
    apply write_slices_run. }
  assert (Hw : forall d',
    writes (out (process_row w path_to_manifest_folder cancer_df i d'))
    = wanted).
  { intros d'. rewrite Hrun. cbn [out].
    now rewrite writes_slice_calls, wanted_in_range. }
  split; [apply Hrun|]. split; [apply Hw|].
  intros Hbefore. rewrite run_writes_of; [apply Hw| |exact Hbefore].
  now apply lookup_lt_Some in Hrow.
Qed.

(** C3: a row whose series directory lists a first file that decodes to a
    volume of exactly 135 slices gets exactly two image writes, slice 130
    and then slice 134, and a volume of 100 slices gets none; this holds
    for the iteration of the row and, once the run arrives at the row, for
    the writes of that row in the whole run. *)
Theorem writes_for_135_and_100_slices (i : nat) (row : LabeledSeriesRow)
    (name : string) (others : list string) (ds : dataset) (shape0 : nat)
    (d : gset string) :
  cancer_df !! i = Some row ->
  listdir w i (series_dir path_to_manifest_folder row)
  = inr (name :: others) ->
  dcmread w i (Path.join (series_dir path_to_manifest_folder row) name)
  = inr ds ->
  pixel_array ds = inr shape0 ->
  let location := new_image_location w (cancer row) in
  let row_writes :=
    writes (out (process_row w path_to_manifest_folder cancer_df i d)) in
  let run_writes :=
    writes_of i
      (out (create_image_datasets w cancer_df path_to_manifest_folder d)) in
  let arrives :=
    res (run_before w path_to_manifest_folder cancer_df i d) = inr tt in
  (shape0 = 135 ->
     row_writes = [Imwrite (Path.join location (image_name i 130)) i 130;
                   Imwrite (Path.join location (image_name i 134)) i 134]
     /\ (arrives -> run_writes = row_writes))
  /\ (shape0 = 100 ->
        row_writes = [] /\ (arrives -> run_writes = [])).
Proof.
  intros Hrow Hl Hds Hpx location row_writes run_writes arrives.
  destruct (readable_row_writes i row name others ds shape0 Hrow Hl Hds Hpx d)
    as (_ & Hw & Hrun).
  fold row_writes in Hw. fold run_writes arrives in Hrun.
  split; intros ->.
  - split; [exact Hw|]. intros Ha. now rewrite Hw, (Hrun Ha).
  - split; [exact Hw|]. exact Hrun.
Qed.

(** C10: for a readable row whose volume has n slices, the slice indices
    written are exactly those of {130, 134} that are below n, each once
    and in increasing order; when 131 <= n <= 134 the only write is that
    of slice 130. *)
Theorem written_slices_are_wanted_below_shape0 (i : nat)
    (row : LabeledSeriesRow) (name : string) (others : list string)
    (ds : dataset) (n : nat) (d : gset string) :
  cancer_df !! i = Some row ->
  listdir w i (series_dir path_to_manifest_folder row)
  = inr (name :: others) ->
  dcmread w i (Path.join (series_dir path_to_manifest_folder row) name)
  = inr ds ->
  pixel_array ds = inr n ->
  let location := new_image_location w (cancer row) in
  let calls := out (process_row w path_to_manifest_folder cancer_df i d) in
  writes calls =
    map (slice_write location i)
        (List.filter (fun s => s <? n) wanted_slices)
  /\ (forall s, (exists p r, In (Imwrite p r s) calls)
                <-> (s = 130 \/ s = 134) /\ s < n)
  /\ (131 <= n <= 134 ->
      writes calls = [Imwrite (Path.join location (image_name i 130)) i 130])
  /\ (res (run_before w path_to_manifest_folder cancer_df i d) = inr tt ->
      writes_of i
        (out (create_image_datasets w cancer_df path_to_manifest_folder d))
      = writes calls).
Proof.
  intros Hrow Hl Hds Hpx location calls.
  destruct (readable_row_writes i row name others ds n Hrow Hl Hds Hpx d)
    as (_ & Hw & Hrun).
  fold location calls in Hw. fold location in Hrun.
  split; [exact Hw|]. split; [|split].
  - intros s. split.
    + intros (p & r & Hin).
      assert (Hin' : In (Imwrite p r s) (writes calls)).
      { unfold writes. apply filter_In. now split. }
      rewrite Hw in Hin'. apply in_map_iff in Hin' as (s' & Heq & Hs').
      injection Heq as _ _ ->.
      apply filter_In in Hs' as [Hs' Hlt]. apply Nat.ltb_lt in Hlt.
      split; [|exact Hlt]. simpl in Hs'. intuition auto.
    + intros [Hs Hlt]. exists (Path.join location (image_name i s)), i.
      assert (Hin : In (slice_write location i s) (writes calls)).
      { rewrite Hw. apply in_map. apply filter_In.
        split; [simpl; intuition auto | now apply Nat.ltb_lt]. }
      unfold writes in Hin. apply filter_In in Hin as [Hin _]. exact Hin.
  - intros [Hlo Hhi]. rewrite Hw. unfold wanted_slices.
    cbn [List.filter].
    destruct (Nat.ltb_spec 130 n); [|lia].
    destruct (Nat.ltb_spec 134 n); [lia|]. reflexivity.
  - intros Ha. now rewrite Hw, (Hrun Ha).
Qed.

End SliceClaims.

Section FailureClaims.

Import Tables Materializer.
Local Open Scope py_scope.

Variable w : world.
Variable path_to_manifest_folder : string.
Variable cancer_df : list LabeledSeriesRow.

(** C5: when the series directory of a row cannot be listed or is empty,
    the iteration of that row prints the message that names the
    directory, writes nothing, creates nothing and ends without an
    exception; the run is then the run up to that row, the message, and
    all the iterations after it, and it holds no write for that row. *)
Theorem unlistable_row_is_skipped (i : nat) (row : LabeledSeriesRow)
    (d : gset string) :
  cancer_df !! i = Some row ->
  unlistable w path_to_manifest_folder i row ->
  let original_image_path := series_dir path_to_manifest_folder row in
  let message :=
    "Unable to work with file: " +:+ original_image_path
    +:+ "; moving on..." in
  process_row w path_to_manifest_folder cancer_df i d =
    Outcome (inr tt) d [Print message]
  /\ create_image_datasets w cancer_df path_to_manifest_folder d =
     (run_before w path_to_manifest_folder cancer_df i ;;
      print message ;;
      run_after w path_to_manifest_folder cancer_df i) d
  /\ writes_of i
       (out (create_image_datasets w cancer_df path_to_manifest_folder d))
     = [].
Proof.
  intros Hrow Hl original_image_path message.
  assert (Hi : i < length cancer_df) by now apply lookup_lt_Some in Hrow.
  assert (Hskip : forall d',
    process_row w path_to_manifest_folder cancer_df i d' =
    Outcome (inr tt) d' [Print message]).
  { intros d'. exact (process_row_unlistable _ _ _ i row d' Hrow Hl). }
  assert (Hrun :
    create_image_datasets w cancer_df path_to_manifest_folder d =
    (run_before w path_to_manifest_folder cancer_df i ;;
     print message ;;
     run_after w path_to_manifest_folder cancer_df i) d).
  { rewrite (run_split _ _ _ i d Hi). apply bind_ext. intros _ d'.
    unfold bind. now rewrite Hskip. }
  split; [apply Hskip|]. split; [exact Hrun|].
  rewrite Hrun, bind_out. unfold writes_of. rewrite List.filter_app.
  fold (writes_of i
          (out (run_before w path_to_manifest_folder cancer_df i d))).
  rewrite run_before_writes_of. cbn [app].
  destruct (res (run_before w path_to_manifest_folder cancer_df i d));
    [reflexivity|].
  rewrite bind_out. cbn [print emit res out dirs]. cbn [app List.filter].
  cbn [is_write_of].
  apply loop_writes_of_other. rewrite in_seq. lia.
Qed.

(** C9: when the image file of a row is listed but reading or decoding it
    raises, the iteration ends with that exception, and so does the run:
    it has done what came before the row and nothing of the rows after
    it.  A listing that fails and a write that fails end normally, the
    failed write with its message printed. *)
Theorem undecodable_row_aborts_run (i : nat) (row : LabeledSeriesRow)
    (e : exn) (d : gset string) :
  cancer_df !! i = Some row ->
  undecodable w path_to_manifest_folder i row e ->
  let before := run_before w path_to_manifest_folder cancer_df i d in
  process_row w path_to_manifest_folder cancer_df i d = Outcome (inl e) d []
  /\ (res before = inr tt ->
      create_image_datasets w cancer_df path_to_manifest_folder d =
      Outcome (inl e) (dirs before) (out before))
  /\ (forall j row' d',
        cancer_df !! j = Some row' ->
        unlistable w path_to_manifest_folder j row' ->
        res (process_row w path_to_manifest_folder cancer_df j d') = inr tt)
  /\ (forall location j shape0 d',
        res (write_slices w location j shape0 d') = inr tt)
  /\ (forall location j shape0 s d',
        In s wanted_slices -> s < shape0 ->
        imwrite w (Path.join location (image_name j s)) = false ->
        In (Print ("Failed to create " +:+ location +:+ "..." +:+ newline))
           (out (write_slices w location j shape0 d'))).
Proof.
  intros Hrow Hu before.
  assert (Hi : i < length cancer_df) by now apply lookup_lt_Some in Hrow.
  split; [exact (process_row_undecodable _ _ _ i row e d Hrow Hu)|].
  split; [|split; [|split]].
  - intros Hres. rewrite (run_split _ _ _ i d Hi).
    unfold bind at 1. fold before. rewrite Hres.
    unfold bind.
    rewrite (process_row_undecodable _ _ _ i row e _ Hrow Hu).
    cbn [res dirs out]. now rewrite List.app_nil_r.
  - intros j row' d' Hrow' Hl.
    now rewrite (process_row_unlistable _ _ _ j row' d' Hrow' Hl).
  - intros location j shape0 d'. now rewrite write_slices_run.
  - intros location j shape0 s d' Hs Hlt Hw.
    rewrite write_slices_run. cbn [out]. apply in_flat_map.
    exists s. split; [apply in_seq; lia|].
    unfold slice_calls.
    replace (existsb (Nat.eqb s) wanted_slices) with true.
    + cbv zeta. rewrite Hw. right. left. reflexivity.
    + symmetry. apply existsb_exists. exists s.
      split; [exact Hs | apply Nat.eqb_refl].
Qed.

End FailureClaims.

Section DestinationClaims.

Import Tables Materializer.
Local Open Scope py_scope.

Lemma label_dirs_apart (a b : string) :
  cancer_image_path +:+ a <> nonmalignant_image_path +:+ b.
Proof.
  unfold cancer_image_path, nonmalignant_image_path.
  rewrite !app_cons. intros H. discriminate H.
Qed.

Lemma image_name_relative (i s : nat) :
  Path.startswith_sep (image_name i s) = false.
Proof. reflexivity. Qed.

(** The directory of a label, and the path of a slice written there. *)
Lemma new_image_location_spelled (w : world) (is_cancer : bool) :
  new_image_location w is_cancer =
  Path.join_prefix (getcwd w)
  +:+ (if is_cancer then cancer_image_path else nonmalignant_image_path).
Proof.
  unfold new_image_location. cbv zeta.
  destruct is_cancer; now rewrite join_relative.
Qed.

Lemma slice_path_spelled (w : world) (is_cancer : bool) (i s : nat) :
  Path.join (new_image_location w is_cancer) (image_name i s) =
  new_image_location w is_cancer +:+ "/" +:+ image_name i s.
Proof.
  rewrite new_image_location_spelled.
  rewrite join_plain, ?string_app_assoc; try reflexivity.
  - now destruct is_cancer.
  - now destruct is_cancer.
Qed.

Lemma label_dir_excludes (w : world) (is_cancer : bool) (f g : string) :
  new_image_location w is_cancer +:+ f <>
  new_image_location w (negb is_cancer) +:+ g.
Proof.
  rewrite !new_image_location_spelled, !string_app_assoc. intros H.
  apply (String.app_inj _) in H.
  destruct is_cancer; simpl in H.
  - now apply label_dirs_apart in H.
  - symmetry in H. now apply label_dirs_apart in H.
Qed.

(** Every call of a run is the creation of a directory or a call of one
    of the iterations. *)
Lemma run_calls (w : world) (cancer_df : list LabeledSeriesRow)
    (path_to_manifest_folder : string) (d : gset string) :
  Forall (fun e => is_makedirs e = true
                   \/ exists j, row_call w cancer_df j e)
    (out (create_image_datasets w cancer_df path_to_manifest_folder d)).
Proof.
  unfold create_image_datasets. rewrite bind_out. apply Forall_app. split.
  - eapply List.Forall_impl; [|apply make_image_dirs_steps]. intros e He.
    now left.
  - destruct (res (make_image_dirs w d)); [constructor|].
    apply loop_confined. intros j e _ He. right. now exists j.
Qed.

(** C6: every slice that a run writes for row r goes to the directory of
    that row's label, [images/cancer] under the working directory when
    [cancer] is true and [images/nonmalignant] when it is false; the two
    directories differ and the written path is not under the other one,
    so that no row writes to both. *)
Theorem destination_follows_label (w : world)
    (cancer_df : list LabeledSeriesRow) (path_to_manifest_folder : string)
    (d : gset string) (p : string) (r s : nat) :
  In (Imwrite p r s)
     (out (create_image_datasets w cancer_df path_to_manifest_folder d)) ->
  exists row,
    cancer_df !! r = Some row
    /\ let destination :=
         Path.join (getcwd w)
           (if cancer row then "images/cancer" else "images/nonmalignant") in
       let other :=
         Path.join (getcwd w)
           (if cancer row then "images/nonmalignant" else "images/cancer") in
       p = destination +:+ "/" +:+ image_name r s
       /\ destination <> other
       /\ forall f, p <> other +:+ "/" +:+ f.
Proof.
  intros Hin.
  pose proof (run_calls w cancer_df path_to_manifest_folder d) as Hall.
  rewrite List.Forall_forall in Hall. apply Hall in Hin as [Hmk|[j Hj]];
    [discriminate|].
  destruct Hj as (-> & _ & row & Hrow & ->). exists row.
  split; [exact Hrow|]. cbv zeta.
  assert (Hdest : Path.join (getcwd w)
            (if cancer row then "images/cancer" else "images/nonmalignant")
          = new_image_location w (cancer row)).
  { unfold new_image_location. now destruct (cancer row). }
  assert (Hother : Path.join (getcwd w)
            (if cancer row then "images/nonmalignant" else "images/cancer")
          = new_image_location w (negb (cancer row))).
  { unfold new_image_location. now destruct (cancer row). }
  rewrite Hdest, Hother, slice_path_spelled. split; [reflexivity|]. split.
  - intros H.
    apply (label_dir_excludes w (cancer row) "" ""). now rewrite H.
  - intros f. apply label_dir_excludes.
Qed.

End DestinationClaims.

Section DirectoryClaims.

Import Tables Materializer.
Local Open Scope py_scope.




End DirectoryClaims.

(** * The scenarios of the specification, run on the model *)

Module Scenario.

Import Tables Materializer.

Definition metadata_csv : list RawMetadataRow :=
  [ {| raw_subject_id := "Prostate-0001";
       raw_modality := "US";
       raw_sop_class_name := "Ultrasound Multi-frame Image Storage";
       raw_file_location := "./studyA";
       raw_series_uid := Some "S1";
       raw_metadata_rest := ["1"; "10.5 MB"] |};
    {| raw_subject_id := "Prostate-0001";
       raw_modality := "MR";
       raw_sop_class_name := "MR Image Storage";
       raw_file_location := "./studyA-mr";
       raw_series_uid := Some "S2";
       raw_metadata_rest := ["60"; "8.1 MB"] |};
    {| raw_subject_id := "Prostate-0002";
       raw_modality := "US";
       raw_sop_class_name := "Ultrasound Multi-frame Image Storage";
       raw_file_location := "./studyB";
       raw_series_uid := Some "S3";
       raw_metadata_rest := ["1"; "9.7 MB"] |} ].

Definition target_xlsx : list RawTargetRow :=
  [ {| raw_ucla_score := Int64 4;
       raw_patient_id := "Prostate-0001";
       raw_seriesInstanceUID_US := Some "S1";
       raw_target_rest := [] |};
    {| raw_ucla_score := Int64 2;
       raw_patient_id := "Prostate-0002";
       raw_seriesInstanceUID_US := Some "S3";
       raw_target_rest := [] |};
    {| raw_ucla_score := Int64 5;
       raw_patient_id := "Prostate-0001";
       raw_seriesInstanceUID_US := Some "S2";
       raw_target_rest := [] |} ].

Definition cancer_df : list LabeledSeriesRow :=
  get_cancer_df metadata_csv target_xlsx 3.

Definition row_A : LabeledSeriesRow :=
  {| ls_subject_id := "Prostate-0001";
     ls_modality := "US";
     ls_sop_class_name := "Ultrasound Multi-frame Image Storage";
     ls_file_location := "./studyA";
     ls_series_uid := Some "S1";
     ls_ucla_score := Int64 4;
     ls_patient_id := "Prostate-0001";
     cancer := true |}.

Definition row_B : LabeledSeriesRow :=
  {| ls_subject_id := "Prostate-0002";
     ls_modality := "US";
     ls_sop_class_name := "Ultrasound Multi-frame Image Storage";
     ls_file_location := "./studyB";
     ls_series_uid := Some "S3";
     ls_ucla_score := Int64 2;
     ls_patient_id := "Prostate-0002";
     cancer := false |}.

(** A manifest folder in which [studyA] holds one file and [studyB] is
    missing; every volume has [shape0] slices. *)
Definition world_with (shape0 : nat) : world :=
  {| getcwd := "/work";
     listdir := fun _ p =>
       if String.eqb p "manifest/studyA" then inr ["1-1.dcm"]
       else inl FileNotFoundError;
     dcmread := fun _ _ => inr {| pixel_array := inr shape0 |};
     imwrite := fun _ => true;
     mkdir_error := fun _ => None |}.


(** The folder of the scenario where [images] is a file, so that the
    system refuses to make a directory below it. *)
Definition world_images_is_file : world :=
  {| getcwd := "/work";
     listdir := fun _ p =>
       if String.eqb p "manifest/studyA" then inr ["1-1.dcm"]
       else inl FileNotFoundError;
     dcmread := fun _ _ => inr {| pixel_array := inr 135 |};
     imwrite := fun _ => true;
     mkdir_error := fun _ => Some NotADirectoryError |}.

(** The same folder with an image file that is not a DICOM file. *)
Definition world_broken : world :=
  {| getcwd := "/work";
     listdir := fun _ p =>
       if String.eqb p "manifest/studyA" then inr ["1-1.dcm"]
       else inl FileNotFoundError;
     dcmread := fun _ _ => inl InvalidDicomError;
     imwrite := fun _ => true;
     mkdir_error := fun _ => None |}.

End Scenario.

Section Scenarios.

Import Tables Materializer Scenario.

Example scenario_join : cancer_df = [row_A; row_B].
Proof. reflexivity. Qed.

Example scenario_fan_out :
  length (get_cancer_df (metadata_csv ++ metadata_csv)
                        (target_xlsx ++ target_xlsx ++ target_xlsx) 3) = 12.
Proof. reflexivity. Qed.

Example scenario_run_135 :
  let o := create_image_datasets (world_with 135) cancer_df "manifest" ∅ in
  res o = inr tt
  /\ out o =
     [Makedirs "images/cancer"; Makedirs "images/nonmalignant";
      Imwrite "/work/images/cancer/image_0_130.jpg" 0 130;
      Print ("/work/images/cancer created successfully" +:+ newline);
      Imwrite "/work/images/cancer/image_0_134.jpg" 0 134;
      Print ("/work/images/cancer created successfully" +:+ newline);
      Print "Unable to work with file: manifest/studyB; moving on..."]
  /\ elements (dirs o) = ["images/cancer"; "images/nonmalignant"; "images"].
Proof. vm_compute. auto. Qed.

Example scenario_run_images_is_file :
  let o :=
    create_image_datasets world_images_is_file cancer_df "manifest"
                          {["images"]} in
  res o = inl NotADirectoryError
  /\ out o = [Makedirs "images/cancer"]
  /\ elements (dirs o) = ["images"].
Proof. vm_compute. auto. Qed.

Example scenario_threshold_rounding :
  float64_of_int (2 ^ 53 + 1) = (2 ^ 53)%Z
  /\ float64_of_int (2 ^ 53 + 3) = (2 ^ 53 + 4)%Z
  /\ float64_of_int (- (2 ^ 53 + 1)) = (- 2 ^ 53)%Z
  /\ float64_of_int (2 ^ 54 + 2) = (2 ^ 54)%Z.
Proof. vm_compute. auto. Qed.

Example scenario_run_broken :
  let o := create_image_datasets world_broken cancer_df "manifest" ∅ in
  res o = inl InvalidDicomError
  /\ out o = [Makedirs "images/cancer"; Makedirs "images/nonmalignant"].
Proof. vm_compute. auto. Qed.

End Scenarios.

Section ScenarioInstances.

Import Tables Materializer Scenario.



(** The first row of the scenario with 135 and with 100 slices. *)
Lemma writes_for_135_and_100_slices_witness :
  writes (out (process_row (world_with 135) "manifest" cancer_df 0 ∅)) =
    [Imwrite "/work/images/cancer/image_0_130.jpg" 0 130;
     Imwrite "/work/images/cancer/image_0_134.jpg" 0 134]
  /\ writes (out (process_row (world_with 100) "manifest" cancer_df 0 ∅))
     = [].
Proof.
  split.
  - exact (proj1 (proj1
      (writes_for_135_and_100_slices (world_with 135) "manifest" cancer_df
         0 row_A "1-1.dcm" [] {| pixel_array := inr 135 |} 135 ∅
         eq_refl eq_refl eq_refl eq_refl) eq_refl)).
  - exact (proj1 (proj2
      (writes_for_135_and_100_slices (world_with 100) "manifest" cancer_df
         0 row_A "1-1.dcm" [] {| pixel_array := inr 100 |} 100 ∅
         eq_refl eq_refl eq_refl eq_refl) eq_refl)).
Defined.

(** The first row of the scenario with 132 slices: slice 130 alone. *)
Lemma written_slices_are_wanted_below_shape0_witness :
  writes (out (process_row (world_with 132) "manifest" cancer_df 0 ∅)) =
    [Imwrite "/work/images/cancer/image_0_130.jpg" 0 130].
Proof.
  exact (proj1
    (written_slices_are_wanted_below_shape0 (world_with 132) "manifest"
       cancer_df 0 row_A "1-1.dcm" [] {| pixel_array := inr 132 |} 132 ∅
       eq_refl eq_refl eq_refl eq_refl)).
Defined.

(** The second row of the scenario: its directory is missing. *)
Lemma unlistable_row_is_skipped_witness :
  process_row (world_with 135) "manifest" cancer_df 1 ∅ =
  Outcome (inr tt) ∅
    [Print "Unable to work with file: manifest/studyB; moving on..."].
Proof.
  exact (proj1
    (unlistable_row_is_skipped (world_with 135) "manifest" cancer_df 1 row_B
       ∅ eq_refl
       (or_introl (ex_intro _ FileNotFoundError eq_refl)))).
Defined.

(** The first row of the scenario when its file is not a DICOM file. *)
Lemma undecodable_row_aborts_run_witness :
  process_row world_broken "manifest" cancer_df 0 ∅ =
  Outcome (inl InvalidDicomError) ∅ [].
Proof.
  exact (proj1
    (undecodable_row_aborts_run world_broken "manifest" cancer_df 0 row_A
       InvalidDicomError ∅ eq_refl
       (ex_intro _ "1-1.dcm"
          (ex_intro _ [] (conj eq_refl (or_introl eq_refl)))))).
Defined.

(** The write of slice 130 of the first row of the scenario. *)
Lemma destination_follows_label_witness :
  exists row,
    cancer_df !! 0 = Some row
    /\ "/work/images/cancer/image_0_130.jpg"
       = Path.join "/work"
           (if cancer row then "images/cancer" else "images/nonmalignant")
         +:+ "/" +:+ image_name 0 130.
Proof.
  destruct (destination_follows_label (world_with 135) cancer_df "manifest"
              ∅ "/work/images/cancer/image_0_130.jpg" 0 130)
    as (row & Hrow & Hp & _).
  - vm_compute. right. right. left. reflexivity.
  - exists row. split; [exact Hrow | exact Hp].
Defined.

End ScenarioInstances.

(** * Further properties of the join *)

Section JoinFacts.

Import Tables.

(** The columns of a joined row other than the label. *)
Definition unlabelled (r : LabeledSeriesRow)
  : string * string * string * string * option string * score_cell
    * string :=
  (ls_subject_id r, ls_modality r, ls_sop_class_name r, ls_file_location r,
   ls_series_uid r, ls_ucla_score r, ls_patient_id r).

(** The joined row of a metadata row and a score row of the files. *)
Definition joined (threshold_for_cancer : Z) (m : RawMetadataRow)
    (s : RawTargetRow) : LabeledSeriesRow :=
  {| ls_subject_id := raw_subject_id m;
     ls_modality := raw_modality m;
     ls_sop_class_name := raw_sop_class_name m;
     ls_file_location := raw_file_location m;
     ls_series_uid := raw_series_uid m;
     ls_ucla_score := raw_ucla_score s;
     ls_patient_id := raw_patient_id s;
     cancer := score_ge (raw_ucla_score s) threshold_for_cancer |}.

Lemma get_cancer_df_In (metadata_csv : list RawMetadataRow)
    (target_xlsx : list RawTargetRow) (threshold : Z)
    (row : LabeledSeriesRow) :
  In row (get_cancer_df metadata_csv target_xlsx threshold) <->
  exists m s, In m metadata_csv /\ In s target_xlsx
              /\ raw_modality m = "US"
              /\ raw_seriesInstanceUID_US s = raw_series_uid m
              /\ row = joined threshold m s.
Proof.
  unfold get_cancer_df. rewrite merge_In. split.
  - intros (l & r & Hl & Hr & Hk & ->).
    apply project_metadata_In in Hl as (m & Hm & <- & HUS).
    unfold label_target, project_target in Hr.
    apply in_map_iff in Hr as (sr & <- & Hsr).
    apply in_map_iff in Hsr as (s & <- & Hs).
    exists m, s. now repeat split.
  - intros (m & s & Hm & Hs & HUS & Hk & ->).
    exists (keep_metadata_columns m),
           (add_cancer_column threshold (keep_target_columns s)).
    split; [apply project_metadata_In; now exists m|].
    split; [|now split].
    unfold label_target, project_target. now do 2 apply in_map.
Qed.

(** The block of one left row, as a function of the threshold. *)
Lemma block_threshold (l : StudyMetadataRow) (t : list ScoreRow)
    (th1 th2 : Z) :
  let block th :=
    map (merged_row l)
      (List.filter
         (fun r => same_uid (score_series_uid (scored r))
                            (metadata_series_uid l))
         (label_target th t)) in
  map unlabelled (block th1) = map unlabelled (block th2)
  /\ ((th1 <= th2)%Z ->
      Forall2 (fun r1 r2 => cancer r2 = true -> cancer r1 = true)
              (block th1) (block th2)).
Proof.
  cbv zeta. unfold label_target.
  induction t as [|r t [IHu IHc]]; [split; [reflexivity|constructor]|].
  cbn [map List.filter add_cancer_column scored].
  destruct (same_uid (score_series_uid r) (metadata_series_uid l)).
  - cbn [map]. split.
    + now rewrite IHu.
    + intros Hle. constructor; [|now apply IHc].
      simpl. now apply score_ge_mono.
  - now split.
Qed.

End JoinFacts.

Section JoinProperties.

Import Tables.

(** X1: a row is in the joined table exactly when it puts together the
    five metadata columns of a metadata row with Modality "US" and the
    score and patient of a score row with the same series identifier,
    with the label that the program's comparison of that score with the
    threshold gives; in particular every joined row has Modality "US".
    For a threshold of magnitude at most 2^53 the comparison holds exactly
    when the score is a number that is at least the threshold. *)
Theorem joined_rows_pair_US_rows_with_scores
    (metadata_csv : list RawMetadataRow) (target_xlsx : list RawTargetRow)
    (threshold : Z) (row : LabeledSeriesRow) :
  (In row (get_cancer_df metadata_csv target_xlsx threshold) <->
   exists m s,
     In m metadata_csv /\ In s target_xlsx
     /\ raw_modality m = "US"
     /\ raw_seriesInstanceUID_US s = raw_series_uid m
     /\ row = {| ls_subject_id := raw_subject_id m;
                 ls_modality := "US";
                 ls_sop_class_name := raw_sop_class_name m;
                 ls_file_location := raw_file_location m;
                 ls_series_uid := raw_seriesInstanceUID_US s;
                 ls_ucla_score := raw_ucla_score s;
                 ls_patient_id := raw_patient_id s;
                 cancer := score_ge (raw_ucla_score s) threshold |})
  /\ ((Z.abs threshold <= 2 ^ 53)%Z ->
      forall score,
        score_ge score threshold = true <->
        exists v, score_value score = Some v
                  /\ (inject_Z threshold <= v)%Q).
Proof.
  split; [|intros Hth score; now apply score_ge_exact].
  rewrite get_cancer_df_In. split.
  - intros (m & s & Hm & Hs & HUS & Hk & ->). exists m, s.
    repeat (split; [assumption|]). unfold joined. now rewrite HUS, Hk.
  - intros (m & s & Hm & Hs & HUS & Hk & ->). exists m, s.
    repeat (split; [assumption|]). unfold joined. now rewrite HUS, Hk.
Qed.

Lemma merge_threshold (left : list StudyMetadataRow) (t : list ScoreRow)
    (th1 th2 : Z) :
  map unlabelled (merge_on_series_uid left (label_target th1 t)) =
  map unlabelled (merge_on_series_uid left (label_target th2 t))
  /\ ((th1 <= th2)%Z ->
      Forall2 (fun r1 r2 => cancer r2 = true -> cancer r1 = true)
              (merge_on_series_uid left (label_target th1 t))
              (merge_on_series_uid left (label_target th2 t))).
Proof.
  unfold merge_on_series_uid.
  induction left as [|l left [IHu IHc]]; [split; [reflexivity|constructor]|].
  cbn [flat_map]. destruct (block_threshold l t th1 th2) as [Hu Hc].
  split.
  - now rewrite !List.map_app, Hu, IHu.
  - intros Hle. apply List.Forall2_app; auto.
Qed.

(** X2: the threshold decides nothing but the label: for two thresholds
    the joined tables have the same rows in the same order in every column
    other than [cancer], and a row labelled true under the higher
    threshold is labelled true under the lower one. *)
Theorem threshold_changes_only_the_label
    (metadata_csv : list RawMetadataRow) (target_xlsx : list RawTargetRow)
    (th1 th2 : Z) :
  let low := get_cancer_df metadata_csv target_xlsx th1 in
  let high := get_cancer_df metadata_csv target_xlsx th2 in
  map unlabelled low = map unlabelled high
  /\ length low = length high
  /\ ((th1 <= th2)%Z ->
      Forall2 (fun r1 r2 => cancer r2 = true -> cancer r1 = true) low high).
Proof.
  cbv zeta. unfold get_cancer_df.
  destruct (merge_threshold (project_metadata metadata_csv)
              (project_target target_xlsx) th1 th2) as [Hu Hc].
  split; [exact Hu|]. split; [|exact Hc].
  apply (f_equal (@length _)) in Hu. now rewrite !List.length_map in Hu.
Qed.

(** The series identifiers of the block of one left row. *)
Lemma block_uids (l : StudyMetadataRow) (right : list LabeledScoreRow) :
  map ls_series_uid
    (map (merged_row l)
       (List.filter
          (fun r => same_uid (score_series_uid (scored r))
                             (metadata_series_uid l)) right)) =
  repeat (metadata_series_uid l)
    (count_uid (fun r => score_series_uid (scored r))
               (metadata_series_uid l) right).
Proof.
  unfold count_uid. induction right as [|r right IH]; [reflexivity|].
  cbn [List.filter].
  destruct (same_uid (score_series_uid (scored r)) (metadata_series_uid l));
    cbn [map length repeat]; now rewrite IH.
Qed.

Lemma count_uid_unique {A : Type} (key : A -> option string)
    (uid : option string) (t : list A) :
  List.NoDup (map key t) -> count_uid key uid t <= 1.
Proof.
  unfold count_uid. induction t as [|r t IH]; [simpl; lia|].
  cbn [map List.filter]. intros Hnd.
  apply List.NoDup_cons_iff in Hnd as [Hr Hnd].
  destruct (same_uid (key r) uid) eqn:Hk; [|now apply IH].
  apply same_uid_true in Hk. subst uid. cbn [length].
  assert (List.filter (fun r0 => same_uid (key r0) (key r)) t = []) as ->;
    [|simpl; lia].
  apply filter_none, List.Forall_forall. intros x Hx.
  destruct (same_uid (key x) (key r)) eqn:Hx'; [|reflexivity].
  apply same_uid_true in Hx'. exfalso. apply Hr.
  rewrite <- Hx'. now apply in_map.
Qed.

Lemma label_target_uids (threshold : Z) (t : list ScoreRow) :
  map (fun r => score_series_uid (scored r)) (label_target threshold t) =
  map score_series_uid t.
Proof. unfold label_target. now rewrite List.map_map. Qed.

Lemma merge_uids_from_left (left : list StudyMetadataRow)
    (right : list LabeledScoreRow) (uid : option string) :
  In uid (map ls_series_uid (merge_on_series_uid left right)) ->
  In uid (map metadata_series_uid left).
Proof.
  intros H. apply in_map_iff in H as (row & <- & Hrow).
  apply merge_In in Hrow as (l & r & Hl & _ & _ & ->).
  simpl. now apply in_map.
Qed.

Lemma merge_without_fan_out (left : list StudyMetadataRow)
    (right : list LabeledScoreRow) :
  List.NoDup (map (fun r => score_series_uid (scored r)) right) ->
  length (merge_on_series_uid left right) <= length left
  /\ (List.NoDup (map metadata_series_uid left) ->
      List.NoDup (map ls_series_uid (merge_on_series_uid left right))).
Proof.
  intros Hr. induction left as [|l left [IHlen IHnd]].
  - split; [simpl; lia | intros _; constructor].
  - unfold merge_on_series_uid in *. cbn [flat_map].
    pose proof (count_uid_unique
                  (fun r => score_series_uid (scored r))
                  (metadata_series_uid l) right Hr) as Hone.
    pose proof (block_uids l right) as Hb.
    split.
    + rewrite List.length_app. cbn [length].
      apply (f_equal (@length _)) in Hb.
      rewrite !List.length_map, List.repeat_length in Hb.
      rewrite List.length_map. lia.
    + cbn [map]. intros Hnd.
      apply List.NoDup_cons_iff in Hnd as [Hl Hnd].
      rewrite List.map_app, Hb.
      destruct (count_uid _ _ right) as [|[|c]]; [| |lia]; cbn [repeat app].
      * now apply IHnd.
      * constructor; [|now apply IHnd].
        intros Hin. apply Hl.
        now apply (merge_uids_from_left left right).
Qed.

(** X3: when no series identifier occurs twice in the score table, there
    is no fan-out: each US metadata row gives at most one joined row; and
    when the identifiers of the US metadata rows are distinct as well, no
    two joined rows share an identifier. *)
Theorem unique_score_uids_prevent_fan_out
    (metadata_csv : list RawMetadataRow) (target_xlsx : list RawTargetRow)
    (threshold : Z) :
  List.NoDup (map raw_seriesInstanceUID_US target_xlsx) ->
  length (get_cancer_df metadata_csv target_xlsx threshold)
  <= length (project_metadata metadata_csv)
  /\ (List.NoDup (map metadata_series_uid (project_metadata metadata_csv)) ->
      List.NoDup
        (map ls_series_uid
             (get_cancer_df metadata_csv target_xlsx threshold))).
Proof.
  intros Hnd. unfold get_cancer_df. apply merge_without_fan_out.
  rewrite label_target_uids. unfold project_target.
  now rewrite List.map_map.
Qed.

End JoinProperties.

(** * File names *)

Section NameFacts.

Import Materializer.

(** No character of [s] is [x]. *)
Fixpoint avoids (x : ascii) (s : string) : Prop :=
  match s with
  | EmptyString => True
  | String c s' => c <> x /\ avoids x s'
  end.

(** Two texts that avoid [x] and are followed by [x] end at the same
    place. *)
Lemma split_at (x : ascii) (a a' r r' : string) :
  avoids x a -> avoids x a' ->
  a +:+ String x r = a' +:+ String x r' -> a = a' /\ r = r'.
Proof.
  revert a'. induction a as [|c a IH]; intros [|c' a'] Ha Ha' H.
  - rewrite !app_empty_l in H. injection H as ->. now split.
  - rewrite app_empty_l, app_cons in H. injection H as <- _.
    now destruct Ha' as [Hc _].
  - rewrite app_empty_l, app_cons in H. injection H as -> _.
    now destruct Ha as [Hc _].
  - rewrite !app_cons in H. injection H as -> H.
    destruct Ha as [_ Ha], Ha' as [_ Ha'].
    destruct (IH a' Ha Ha' H) as [-> ->]. now split.
Qed.

Lemma digits_avoid (x : ascii) (d : uint) :
  (forall c, In c ["0"; "1"; "2"; "3"; "4"; "5"; "6"; "7"; "8"; "9"]%char
             -> c <> x) ->
  avoids x (NilEmpty.string_of_uint d).
Proof.
  intros Hx.
  induction d; simpl; try exact I; (split; [apply Hx; simpl; tauto|exact IHd]).
Qed.

Lemma str_avoids (x : ascii) (n : nat) :
  (forall c, In c ["0"; "1"; "2"; "3"; "4"; "5"; "6"; "7"; "8"; "9"]%char
             -> c <> x) ->
  avoids x (Path.str n).
Proof.
  intros Hx. unfold Path.str, NilZero.string_of_uint.
  destruct (Nat.to_uint n) eqn:Hn; try (rewrite <- Hn; now apply digits_avoid).
  simpl. split; [apply Hx; simpl; tauto | exact I].
Qed.

Lemma to_uint_nonnil (n : nat) : Nat.to_uint n <> Nil.
Proof.
  rewrite <- (Unsigned.of_to n) at 1. rewrite Unsigned.to_of.
  apply unorm_nonnil.
Qed.

(** [str] is read back by the decimal parser, so it is injective. *)
Lemma str_read_back (n : nat) :
  NilZero.uint_of_string (Path.str n) = Some (Nat.to_uint n).
Proof. unfold Path.str. apply NilZero.usu, to_uint_nonnil. Qed.

Lemma str_inj (n n' : nat) : Path.str n = Path.str n' -> n = n'.
Proof.
  intros H. apply Unsigned.to_uint_inj.
  pose proof (str_read_back n) as Hn. rewrite H, str_read_back in Hn.
  now injection Hn.
Qed.

Lemma not_a_digit (x : ascii) :
  (x = "_" \/ x = ".")%char ->
  forall c, In c ["0"; "1"; "2"; "3"; "4"; "5"; "6"; "7"; "8"; "9"]%char
            -> c <> x.
Proof.
  intros [-> | ->] c Hc; simpl in Hc;
    repeat (destruct Hc as [<-|Hc]; [discriminate|]); contradiction.
Qed.

(** The name of a written file tells the row and the slice. *)
Lemma image_name_inj (i s i' s' : nat) :
  image_name i s = image_name i' s' -> i = i' /\ s = s'.
Proof.
  unfold image_name. intros H.
  apply (String.app_inj "image_") in H.
  change ("_" +:+ Path.str s +:+ ".jpg")
    with (String "_" (Path.str s +:+ String "." "jpg")) in H.
  change ("_" +:+ Path.str s' +:+ ".jpg")
    with (String "_" (Path.str s' +:+ String "." "jpg")) in H.
  apply split_at in H as [Hi H];
    try (apply str_avoids, not_a_digit; now left).
  apply split_at in H as [Hs _];
    try (apply str_avoids, not_a_digit; now right).
  split; now apply str_inj.
Qed.

End NameFacts.

(** * Further properties of the materializer *)

Section RunProperties.

Import Tables Materializer.
Local Open Scope py_scope.

Variable w : world.
Variable path_to_manifest_folder : string.
Variable cancer_df : list LabeledSeriesRow.

Let body : nat -> M unit :=
  process_row w path_to_manifest_folder cancer_df.

Let run : M unit :=
  create_image_datasets w cancer_df path_to_manifest_folder.

(** X5: the file names are qualified by row and slice: two writes of a
    run that are given the same path are writes of the same slice of the
    same row, so that no row overwrites the image of another. *)
Theorem same_path_same_row_and_slice (d : gset string) (p : string)
    (r s r' s' : nat) :
  In (Imwrite p r s)
     (out (create_image_datasets w cancer_df path_to_manifest_folder d)) ->
  In (Imwrite p r' s')
     (out (create_image_datasets w cancer_df path_to_manifest_folder d)) ->
  r = r' /\ s = s'.
Proof.
  intros H H'.
  pose proof (run_calls w cancer_df path_to_manifest_folder d) as Hall.
  rewrite List.Forall_forall in Hall.
  apply Hall in H as [H|[j H]]; [discriminate|].
  apply Hall in H' as [H'|[j' H']]; [discriminate|].
  destruct H as (<- & _ & row & _ & Hp).
  destruct H' as (<- & _ & row' & _ & Hp').
  rewrite slice_path_spelled in Hp, Hp'. rewrite Hp in Hp'.
  destruct (Bool.bool_dec (cancer row) (cancer row')) as [Hc|Hc].
  - rewrite Hc in Hp'. apply (String.app_inj _) in Hp'.
    apply (String.app_inj "/") in Hp'. now apply image_name_inj.
  - exfalso. apply (label_dir_excludes w (cancer row)
                      ("/" +:+ image_name r s) ("/" +:+ image_name r' s')).
    replace (negb (cancer row)) with (cancer row'); [exact Hp'|].
    destruct (cancer row) eqn:E, (cancer row') eqn:E'; simpl; congruence.
Qed.

(** The four ways in which an iteration ends. *)
Lemma process_row_cases (i : nat) (d : gset string) :
  (cancer_df !! i = None /\ body i d = Outcome (inl IndexError) d [])
  \/ (exists row, cancer_df !! i = Some row
        /\ unlistable w path_to_manifest_folder i row
        /\ body i d =
           Outcome (inr tt) d
             [Print (skip_message (series_dir path_to_manifest_folder row))])
  \/ (exists row e, cancer_df !! i = Some row
        /\ undecodable w path_to_manifest_folder i row e
        /\ body i d = Outcome (inl e) d [])
  \/ (exists row shape0, cancer_df !! i = Some row
        /\ body i d =
           Outcome (inr tt) d
             (flat_map (slice_calls w (new_image_location w (cancer row)) i)
                       (seq 0 shape0))).
Proof.
  unfold body.
  destruct (cancer_df !! i) as [row|] eqn:Hrow.
  2:{ left. split; [reflexivity|]. unfold process_row. now rewrite Hrow. }
  right.
  destruct (listdir w i (series_dir path_to_manifest_folder row))
    as [e|[|name others]] eqn:Hl.
  - left. exists row. split; [reflexivity|].
    assert (Hu : unlistable w path_to_manifest_folder i row)
      by (left; now exists e).
    split; [exact Hu|].
    exact (process_row_unlistable _ _ _ i row d Hrow Hu).
  - left. exists row. split; [reflexivity|].
    assert (Hu : unlistable w path_to_manifest_folder i row) by now right.
    split; [exact Hu|].
    exact (process_row_unlistable _ _ _ i row d Hrow Hu).
  - right.
    destruct (dcmread w i
                (Path.join (series_dir path_to_manifest_folder row) name))
      as [e|ds] eqn:Hds.
    + left. exists row, e. split; [reflexivity|].
      assert (Hu : undecodable w path_to_manifest_folder i row e).
      { exists name, others. split; [exact Hl | now left]. }
      split; [exact Hu|].
      exact (process_row_undecodable _ _ _ i row e d Hrow Hu).
    + destruct (pixel_array ds) as [e|shape0] eqn:Hpx.
      * left. exists row, e. split; [reflexivity|].
        assert (Hu : undecodable w path_to_manifest_folder i row e).
        { exists name, others. split; [exact Hl|]. right. now exists ds. }
        split; [exact Hu|].
      exact (process_row_undecodable _ _ _ i row e d Hrow Hu).
      * right. exists row, shape0. split; [reflexivity|].
        rewrite (process_row_readable _ _ _ i row name others ds shape0)
          by assumption.
        apply write_slices_run.
Qed.

Lemma slice_calls_writes_le (location : string) (i shape0 : nat) :
  length (writes (flat_map (slice_calls w location i) (seq 0 shape0))) <= 2.
Proof.
  rewrite writes_slice_calls, wanted_in_range, List.length_map.
  apply (Nat.le_trans _ _ _ (List.filter_length_le _ wanted_slices)).
  reflexivity.
Qed.

Lemma body_writes_le (i : nat) (d : gset string) :
  length (writes (out (body i d))) <= 2.
Proof.
  destruct (process_row_cases i d)
    as [[_ ->]|[(row & _ & _ & ->)|[(row & e & _ & _ & ->)
                                   |(row & n & _ & ->)]]];
    cbn [out]; try (simpl; lia).
  apply slice_calls_writes_le.
Qed.

Lemma loop_writes_le (indices : list nat) (d : gset string) :
  length (writes (out (for_each indices body d))) <= 2 * length indices.
Proof.
  revert d. induction indices as [|i indices IH]; intros d; [simpl; lia|].
  rewrite for_each_cons, bind_out. unfold writes.
  rewrite List.filter_app, List.length_app.
  fold (writes (out (body i d))). pose proof (body_writes_le i d) as Hb.
  destruct (res (body i d)).
  - cbn [List.filter length]. cbn [length] in *. lia.
  - specialize (IH (dirs (body i d))). unfold writes in IH.
    cbn [length]. lia.
Qed.

Lemma run_writes_of_cases (i : nat) (d : gset string) :
  writes_of i (out (run d)) = []
  \/ exists d', writes_of i (out (run d)) = writes (out (body i d')).
Proof.
  unfold run.
  destruct (Nat.lt_ge_cases i (length cancer_df)) as [Hi|Hi].
  - destruct (res (run_before w path_to_manifest_folder cancer_df i d))
      as [e|[]] eqn:Hres.
    + left. rewrite (run_split _ _ _ i d Hi), bind_out, Hres.
      rewrite List.app_nil_r. apply run_before_writes_of.
    + right. eexists. now apply run_writes_of.
  - left. unfold create_image_datasets. rewrite bind_out. unfold writes_of.
    rewrite List.filter_app. fold (writes_of i (out (make_image_dirs w d))).
    rewrite dirs_writes_of. cbn [app].
    destruct (res (make_image_dirs w d)); [reflexivity|].
    apply loop_writes_of_other. rewrite in_seq. lia.
Qed.

(** X6: whatever the manifest folder holds, a run makes at most two image
    writes for any row, and so at most twice as many as the table has
    rows. *)
Theorem at_most_two_writes_per_row (d : gset string) :
  (forall i,
     length (writes_of i
       (out (create_image_datasets w cancer_df path_to_manifest_folder d)))
     <= 2)
  /\ length (writes
       (out (create_image_datasets w cancer_df path_to_manifest_folder d)))
     <= 2 * length cancer_df.
Proof.
  split.
  - intros i. pose proof (run_writes_of_cases i d) as H. unfold run in H.
    destruct H as [->|[d' ->]]; [simpl; lia | apply body_writes_le].
  - unfold create_image_datasets. rewrite bind_out. unfold writes.
    rewrite List.filter_app, List.length_app.
    assert (List.filter is_write (out (make_image_dirs w d)) = []) as ->.
    { apply filter_none.
      eapply List.Forall_impl; [|apply make_image_dirs_steps].
      now intros [p|msg|p r s]. }
    destruct (res (make_image_dirs w d)); [simpl; lia|].
    pose proof (loop_writes_le (seq 0 (length cancer_df))
                  (dirs (make_image_dirs w d))) as H.
    rewrite List.length_seq in H. unfold writes, body in H.
    cbn [length]. lia.
Qed.

End RunProperties.

Section TraceProperties.

Import Tables Materializer.
Local Open Scope py_scope.

(** The write of a wanted slice and the message that reports it. *)
Definition reported_write (w : world) (location : string)
    (i slice_number : nat) : list event :=
  let slice_image_path := Path.join location (image_name i slice_number) in
  [Imwrite slice_image_path i slice_number;
   Print (if imwrite w slice_image_path
          then location +:+ " created successfully" +:+ newline
          else "Failed to create " +:+ location +:+ "..." +:+ newline)].

Lemma slice_calls_wanted (w : world) (location : string) (i : nat)
    (slices : list nat) :
  flat_map (slice_calls w location i) slices =
  flat_map (reported_write w location i)
    (List.filter (fun s => existsb (Nat.eqb s) wanted_slices) slices).
Proof.
  induction slices as [|s slices IH]; [reflexivity|].
  cbn [flat_map List.filter]. rewrite IH. unfold slice_calls.
  destruct (existsb (Nat.eqb s) wanted_slices); reflexivity.
Qed.

(** X8: the calls of the iteration of a readable row are, for each of the
    slices 130 and 134 that the volume has, the write of the slice
    directly followed by one message: the success message when
    [cv2.imwrite] returned true and the failure message when it returned
    false, either of them naming the label directory and not the file; the
    iteration makes no other call and returns normally. *)
Theorem each_write_is_reported (w : world) (path_to_manifest_folder : string)
    (cancer_df : list LabeledSeriesRow) (i : nat) (row : LabeledSeriesRow)
    (name : string) (others : list string) (ds : dataset) (shape0 : nat)
    (d : gset string) :
  cancer_df !! i = Some row ->
  listdir w i (series_dir path_to_manifest_folder row)
  = inr (name :: others) ->
  dcmread w i (Path.join (series_dir path_to_manifest_folder row) name)
  = inr ds ->
  pixel_array ds = inr shape0 ->
  let location := new_image_location w (cancer row) in
  process_row w path_to_manifest_folder cancer_df i d =
  Outcome (inr tt) d
    (flat_map
       (fun s =>
          let slice_image_path := Path.join location (image_name i s) in
          [Imwrite slice_image_path i s;
           Print (if imwrite w slice_image_path
                  then location +:+ " created successfully" +:+ newline
                  else "Failed to create " +:+ location +:+ "..."
                       +:+ newline)])
       (List.filter (fun s => s <? shape0) [130; 134])).
Proof.
  intros Hrow Hl Hds Hpx location.
  rewrite (process_row_readable _ _ _ i row name others ds shape0)
    by assumption.
  rewrite write_slices_run, slice_calls_wanted, wanted_in_range.
  reflexivity.
Qed.

End TraceProperties.

(** * The orchestrator: [main] *)

Module Main.

Import Tables Materializer.
Local Open Scope py_scope.

(** What ends a run of [main] early: [ValueError] of [int], a read of a
    table that raises, or an exception of the kinds of the materializer
    ([TypeError] is that of [int(None)] and of [os.path.join(None, ...)]). *)
Inductive error :=
| ValueError
| ReadError (path : string)
| Raised (e : exn).

(** The calls of [main] in program order: those of the materializer and
    its own [print], the print of the label counts, and the pauses. *)
Inductive step :=
| Call (e : event)
| PrintValueCounts (cancer_column : list bool)
| Sleep (seconds : nat).

(** The surroundings of [main]: the environment variables as they are
    after [load_dotenv("settings.env")], the builtin [int] on a text
    ([None] when it raises [ValueError]), the two tables as [pd.read_csv]
    and [pd.read_excel] return them ([None] when the read raises or the
    table lacks one of the kept columns), and the world of the
    materializer. *)
Record config := {
  getenv : string -> option string;
  int : string -> option Z;
  read_csv : option (list RawMetadataRow);
  read_excel : option (list RawTargetRow);
  files : world
}.

Record result := Result {
  main_res : error + unit;
  main_dirs : gset string;
  main_out : list step
}.

(** Lines 25-57 with the two reads, in their order. *)
Definition load_cancer_df (c : config) (threshold_for_cancer : Z)
  : error + list LabeledSeriesRow :=
  match read_csv c with
  | None => inl (ReadError "datasets/metadata.csv")
  | Some metadata_csv =>
      match read_excel c with
      | None => inl (ReadError "datasets/Target Data_2019-12-05.xlsx")
      | Some target_xlsx =>
          inr (get_cancer_df metadata_csv target_xlsx threshold_for_cancer)
      end
  end.

(** Lines 76-114 when the manifest folder is what [os.getenv] returned:
    the row is looked up (line 78), and on [None] for the folder
    [os.path.join] raises [TypeError] (line 80), in front of the [try];
    on a text the iteration is [process_row]. *)
Definition process_row_of (w : world) (path_to_manifest_folder : option string)
    (cancer_df : list LabeledSeriesRow) (i : nat) : M unit :=
  match cancer_df !! i with
  | None => raise IndexError
  | Some _ =>
      match path_to_manifest_folder with
      | None => raise TypeError
      | Some folder => process_row w folder cancer_df i
      end
  end.

(** Lines 67-114 on that argument: the same creation step and the same
    loop as [create_image_datasets]. *)
Definition create_image_datasets_of (w : world)
    (cancer_df : list LabeledSeriesRow)
    (path_to_manifest_folder : option string) : M unit :=
  make_image_dirs w ;;
  for_each (seq 0 (length cancer_df))
    (process_row_of w path_to_manifest_folder cancer_df).

Definition of_outcome (o : outcome unit) : result :=
  Result (match res o with
          | inl e => inl (Raised e)
          | inr u => inr u
          end)
         (dirs o) (map Call (out o)).

Definition generating : string :=
  "Generating information on cancer/noncancerous photos...".
Definition distribution : string :=
  "Dataset distribution (msg shown for 5 seconds)...".
Definition creating : string :=
  "Creating dataset now (msg shown for 5 seconds)...".

(** Lines 117-137. *)
Definition main (c : config) (d : gset string) : result :=
  match getenv c "UCLA_CANCER_THRESHOLD" with
  | None => Result (inl (Raised TypeError)) d []
  | Some text =>
      match int c text with
      | None => Result (inl ValueError) d []
      | Some ucla_cancer_threshold =>
          let path_to_manifest_folder :=
            getenv c "PATH_TO_MANIFEST_FOLDER" in
          match load_cancer_df c ucla_cancer_threshold with
          | inl e => Result (inl e) d [Call (Print generating)]
          | inr cancer_df =>
              let o :=
                of_outcome
                  (create_image_datasets_of (files c) cancer_df
                     path_to_manifest_folder d) in
              Result (main_res o) (main_dirs o)
                ([Call (Print generating);
                  Call (Print distribution);
                  PrintValueCounts (map cancer cancer_df);
                  Sleep 5;
                  Call (Print creating);
                  Sleep 5]
                 ++ main_out o)
          end
      end
  end.

(** The steps that touch the file system. *)
Definition touches_files (s : step) : bool :=
  match s with
  | Call (Makedirs _) | Call (Imwrite _ _ _) => true
  | _ => false
  end.

(** [main] gets as far as the materializer only with a threshold that
    parses and two tables that were read. *)
Definition inputs_read (c : config) (threshold : Z)
    (metadata_csv : list RawMetadataRow) (target_xlsx : list RawTargetRow)
  : Prop :=
  (exists text, getenv c "UCLA_CANCER_THRESHOLD" = Some text
                /\ int c text = Some threshold)
  /\ read_csv c = Some metadata_csv
  /\ read_excel c = Some target_xlsx.

End Main.

Section MainProperties.

Import Tables Materializer Main.
Local Open Scope py_scope.






Lemma main_without_inputs (c : config) (d : gset string) :
  (exists threshold metadata_csv target_xlsx,
     inputs_read c threshold metadata_csv target_xlsx)
  \/ (exists e, main_res (main c d) = inl e)
     /\ main_dirs (main c d) = d
     /\ Forall (fun s => touches_files s = false) (main_out (main c d)).
Proof.
  unfold main, load_cancer_df, inputs_read.
  destruct (getenv c "UCLA_CANCER_THRESHOLD") as [text|] eqn:Hth.
  2:{ right. cbn. split; [eauto|]. split; [reflexivity | constructor]. }
  destruct (int c text) as [threshold|] eqn:Hint.
  2:{ right. cbn. split; [eauto|]. split; [reflexivity | constructor]. }
  destruct (read_csv c) as [metadata_csv|] eqn:Hcsv.
  2:{ right. cbn. split; [eauto|]. split; [reflexivity|].
      repeat constructor. }
  destruct (read_excel c) as [target_xlsx|] eqn:Hxlsx.
  2:{ right. cbn. split; [eauto|]. split; [reflexivity|].
      repeat constructor. }
  left. exists threshold, metadata_csv, target_xlsx.
  split; [now exists text | now split].
Qed.

(** X10: [main] does not touch the file system unless its inputs are in
    order.  Without the threshold variable it raises [TypeError], and
    with a text that [int] rejects [ValueError], in both cases with
    nothing printed and nothing made.  In every run, either the
    threshold was set and read by [int] and both tables were read, or
    [main] raises, leaves the existing paths as they were and has made no
    [os.makedirs] or [cv2.imwrite] call. *)
Theorem main_reads_inputs_before_files (c : config) (d : gset string) :
  (getenv c "UCLA_CANCER_THRESHOLD" = None ->
   main c d = Result (inl (Raised TypeError)) d [])
  /\ (forall text,
        getenv c "UCLA_CANCER_THRESHOLD" = Some text ->
        int c text = None ->
        main c d = Result (inl ValueError) d [])
  /\ ((exists threshold metadata_csv target_xlsx,
         inputs_read c threshold metadata_csv target_xlsx)
      \/ (exists e, main_res (main c d) = inl e)
         /\ main_dirs (main c d) = d
         /\ Forall (fun s => touches_files s = false)
                   (main_out (main c d))).
Proof.
  split; [|split].
  - intros H. unfold main. now rewrite H.
  - intros text H Hint. unfold main. now rewrite H, Hint.
  - apply main_without_inputs.
Qed.




End MainProperties.

(** * The scenario, from the settings on *)

Module MainScenario.

Import Tables Materializer Main.

(** The decimal reading of a text of digits with an optional minus sign,
    on which it agrees with [int]. *)
Definition decimal (text : string) : option Z :=
  option_map Z.of_int (NilZero.int_of_string text).

Definition settings (folder : option string) (name : string)
  : option string :=
  if String.eqb name "UCLA_CANCER_THRESHOLD" then Some "3"
  else if String.eqb name "PATH_TO_MANIFEST_FOLDER" then folder
  else None.

Definition config_with (folder : option string) : config :=
  {| getenv := settings folder;
     int := decimal;
     read_csv := Some Scenario.metadata_csv;
     read_excel := Some Scenario.target_xlsx;
     files := Scenario.world_with 135 |}.

Definition config_without_threshold : config :=
  {| getenv := fun _ => None;
     int := decimal;
     read_csv := Some Scenario.metadata_csv;
     read_excel := Some Scenario.target_xlsx;
     files := Scenario.world_with 135 |}.

End MainScenario.

Section MainScenarios.

Import Tables Materializer Main Scenario MainScenario.

Example scenario_main :
  let o := main (config_with (Some "manifest")) ∅ in
  main_res o = inr tt
  /\ main_out o =
     [Call (Print generating); Call (Print distribution);
      PrintValueCounts [true; false]; Sleep 5;
      Call (Print creating); Sleep 5;
      Call (Makedirs "images/cancer");
      Call (Makedirs "images/nonmalignant");
      Call (Imwrite "/work/images/cancer/image_0_130.jpg" 0 130);
      Call (Print ("/work/images/cancer created successfully" +:+ newline));
      Call (Imwrite "/work/images/cancer/image_0_134.jpg" 0 134);
      Call (Print ("/work/images/cancer created successfully" +:+ newline));
      Call (Print "Unable to work with file: manifest/studyB; moving on...")].
Proof. vm_compute. auto. Qed.

Example scenario_main_without_threshold :
  main config_without_threshold ∅ = Result (inl (Raised TypeError)) ∅ [].
Proof. reflexivity. Qed.


End MainScenarios.

Section ExtraInstances.

Import Tables Materializer Main Scenario MainScenario.

(** The score table of the scenario names each series once. *)
Lemma unique_score_uids_prevent_fan_out_witness :
  length (get_cancer_df metadata_csv target_xlsx 3) <= 2.
Proof.
  refine (proj1 (unique_score_uids_prevent_fan_out metadata_csv target_xlsx
                   3 _)).
  repeat constructor; simpl; intuition discriminate.
Defined.

(** Two writes of the scenario to the image of slice 130. *)
Lemma same_path_same_row_and_slice_witness : 0 = 0 /\ 130 = 130.
Proof.
  apply (same_path_same_row_and_slice (world_with 135) "manifest" cancer_df
           ∅ "/work/images/cancer/image_0_130.jpg" 0 130 0 130);
    vm_compute; right; right; left; reflexivity.
Defined.

(** The first row of the scenario with a volume of 132 slices. *)
Lemma each_write_is_reported_witness :
  process_row (world_with 132) "manifest" cancer_df 0 ∅ =
  Outcome (inr tt) ∅
    [Imwrite "/work/images/cancer/image_0_130.jpg" 0 130;
     Print ("/work/images/cancer created successfully" +:+ newline)].
Proof.
  exact (each_write_is_reported (world_with 132) "manifest" cancer_df 0
           row_A "1-1.dcm" [] {| pixel_array := inr 132 |} 132 ∅
           eq_refl eq_refl eq_refl eq_refl).
Defined.



End ExtraInstances.
